(** * usergroup-manager: the ElastiCache user discovery step

    A shallow embedding of [functions/usergroup-manager/fn.go].  The Go
    function [RunFunction] is a straight line of calls with early returns;
    it is embedded as one Rocq function that returns the two Go results
    together with the observed composite resource as it is in memory when
    the function returns and the trace of log lines and AWS calls.

    Calls into the function SDK that only build the response
    ([response.To], [response.Fatal], [response.SetContextKey],
    [response.SetDesiredCompositeResource], [response.ConditionTrue]) and
    the readers [request.GetCredentials] and [GetString] are written out.
    Calls whose result is decided outside the function (document
    conversion, AWS configuration loading, the ElastiCache API) are the
    fields of a [World]. *)

From Stdlib Require Import ZArith Ascii String.
From Stdlib.Strings Require Import Byte.
From Stdlib Require QArith_base.
From stdpp Require Import gmap strings list fin_maps pretty.

Set Warnings "-register-all".

Local Open Scope string_scope.
Local Open Scope list_scope.

(** ** Go values *)

(** A Go [error], kept as the text of its [Error()] method. *)
Definition error : Type := string.

(** [fmt.Errorf("<prefix>: %w", err)]: the wrapped error prints as the
    prefix followed by the text of the cause. *)
Definition Errorf_w (pfx : string) (err : error) : error := pfx +:+ err.

(** A finite [float64], as the rational it denotes. *)
Abbreviation float64 := QArith_base.Q.

(** A [[]byte]. *)
Abbreviation bytes := (list Byte.byte).

(** A Go value of type [any], with the dynamic types this program meets:
    what a JSON-like document holds, and the [int] and [[]string] the
    function stores itself.  A slice is the list of its elements: a nil
    slice and an empty one are both [[]]. *)
Inductive any : Type :=
  | Nil
  | Bool (b : bool)
  | Int (n : Z)
  | Float64 (x : float64)
  | Str (s : string)
  | Map (m : gmap string any)
  | Slice (l : list any)
  | Strings (l : list string).

(** ** google.golang.org/protobuf/types/known/structpb *)
Module structpb.

Inductive Value : Type :=
  | NullValue
  | NumberValue (x : float64)
  | StringValue (s : string)
  | BoolValue (b : bool)
  | StructValue (fields : gmap string Value)
  | ListValue (values : list Value).

(** A [Struct] is its [Fields] map. *)
Abbreviation Struct := (gmap string Value).

Definition NewStringValue (s : string) : Value := StringValue s.
Definition NewListValue (values : list Value) : Value := ListValue values.

End structpb.

(** ** github.com/crossplane/function-sdk-go/proto/v1 *)
Module fnv1.

Inductive Severity := SEVERITY_UNSPECIFIED | SEVERITY_FATAL | SEVERITY_WARNING | SEVERITY_NORMAL.
Inductive Target := TARGET_UNSPECIFIED | TARGET_COMPOSITE | TARGET_COMPOSITE_AND_CLAIM.
Inductive Status :=
  STATUS_CONDITION_UNSPECIFIED | STATUS_CONDITION_UNKNOWN | STATUS_CONDITION_TRUE | STATUS_CONDITION_FALSE.

Module Result.
Record t := mk { Severity : fnv1.Severity; Message : string; Target : option fnv1.Target }.
End Result.

(** The text given to [response.ConditionTrue] is kept in [Reason]; the
    function never attaches a further text to a condition. *)
Module Condition.
Record t := mk { Type_ : string; Status : fnv1.Status; Reason : string; Target : option fnv1.Target }.
End Condition.

Module Resource.
Record t := mk { Resource : option structpb.Struct; ConnectionDetails : gmap string bytes }.
End Resource.

Module State.
Record t := mk { Composite : option Resource.t; Resources : gmap string Resource.t }.
Definition empty : t := mk None ∅.
End State.

(** The [source] of a credential is a oneof with the single case
    [credential_data]. *)
Inductive Credentials :=
  | Credentials_CredentialData (data : gmap string bytes)
  | Credentials_unset.

Module RequestMeta.
Record t := mk { Tag : string }.
End RequestMeta.

Module ResponseMeta.
(** [Ttl] in seconds. *)
Record t := mk { Tag : string; Ttl : Z }.
End ResponseMeta.

Module RunFunctionRequest.
Record t := mk {
  Meta : option RequestMeta.t;
  Observed : option State.t;
  Desired : option State.t;
  Context : option structpb.Struct;
  Credentials : gmap string fnv1.Credentials }.
End RunFunctionRequest.

Module RunFunctionResponse.
Record t := mk {
  Meta : option ResponseMeta.t;
  Desired : option State.t;
  Results : list Result.t;
  Context : option structpb.Struct;
  Conditions : list Condition.t }.
End RunFunctionResponse.

(** The nil-safe getters of the generated code. *)
Definition GetTag (m : option RequestMeta.t) : string :=
  match m with Some m => RequestMeta.Tag m | None => "" end.

Definition GetObservedComposite (req : RunFunctionRequest.t) : option Resource.t :=
  RunFunctionRequest.Observed req ≫= State.Composite.

End fnv1.

Import fnv1.

(** ** github.com/crossplane/function-sdk-go/resource *)
Module resource.

(** [composite.Unstructured]: the [Object] of the embedded
    [unstructured.Unstructured]. *)
Module Composite.
Record t := mk { Object : gmap string any; ConnectionDetails : gmap string bytes }.
End Composite.

Module Credentials.
Record t := mk { Data : gmap string bytes }.
End Credentials.

(** [fieldpath]: a path of plain field names separated by dots (no
    brackets), split into its segments. *)
Fixpoint Parse_go (cur : string) (path : string) : list string :=
  match path with
  | EmptyString => [cur]
  | String c rest =>
      if Ascii.eqb c "."%char then cur :: Parse_go "" rest
      else Parse_go (cur +:+ String c "") rest
  end.

Definition Parse (path : string) : list string := Parse_go "" path.

(** Walk the segments: every step needs an object holding the field.  An
  error names the part of the path walked so far. *)
Fixpoint GetValue_go (walked segments : list string) (it : any) : error + any :=
match segments with
| [] => inr it
| f :: rest =>
    match it with
    | Map object =>
        match object !! f with
        | Some v => GetValue_go (walked ++ [f]) rest v
        | None => inl (String.concat "." (walked ++ [f]) +:+ ": no such field")
        end
    | _ => inl (String.concat "." walked +:+ ": not an object")
    end
end.

Definition GetValue (object : gmap string any) (path : string) : error + any :=
GetValue_go [] (Parse path) (Map object).

Definition GetString (object : gmap string any) (path : string) : error + string :=
  match GetValue object path with
  | inl err => inl err
  | inr (Str s) => inr s
  | inr _ => inl (path +:+ ": not a string")
  end.

End resource.

(** ** github.com/aws/aws-sdk-go-v2 *)
Module aws.

(** [credentials.StaticCredentialsProvider]: the three values as given. *)
Module StaticCredentialsProvider.
Record t := mk { AccessKeyID : string; SecretAccessKey : string; SessionToken : string }.
End StaticCredentialsProvider.

Definition NewStaticCredentialsProvider (key secret session : string) : StaticCredentialsProvider.t :=
  StaticCredentialsProvider.mk key secret session.

(** [types.User] of the ElastiCache service: the two fields the function
    reads, both pointers. *)
Module User.
Record t := mk { UserId : option string; UserName : option string }.
End User.

Module DescribeUsersOutput.
Record t := mk { Users : list User.t; Marker : option string }.
End DescribeUsersOutput.

(** [aws.ToString]: the pointed-to string, or the empty string for nil. *)
Definition ToString (p : option string) : string := default "" p.

End aws.

(** ** The world outside the function

    What the function cannot decide by itself: whether a protobuf document
    converts to an object and back, whether the AWS configuration loads,
    and what the ElastiCache API answers. *)
Record World := {
  aws_Config : Type;
  AsObject : option structpb.Struct → error + gmap string any;
  AsStruct : gmap string any → error + structpb.Struct;
  LoadDefaultConfig : string → aws.StaticCredentialsProvider.t → error + aws_Config;
  DescribeUsers : aws_Config → error + aws.DescribeUsersOutput.t
}.

(** What the function does that is seen from outside, in program order. *)
Inductive Event :=
  | Info (msg : string) (keysAndValues : list (string * any))
  | CallLoadDefaultConfig (region : string) (p : aws.StaticCredentialsProvider.t)
  | CallDescribeUsers.

(** ** github.com/crossplane/function-sdk-go/request *)
Module request.

(** A fresh composite with the connection details of the observed one,
    filled from the observed document. *)
Definition GetObservedCompositeResource (w : World) (req : RunFunctionRequest.t)
    : error + resource.Composite.t :=
  let composite := GetObservedComposite req in
  let details := default ∅ (Resource.ConnectionDetails <$> composite) in
  match AsObject w (composite ≫= Resource.Resource) with
  | inl err => inl err
  | inr object => inr (resource.Composite.mk object details)
  end.

Definition GetCredentials (req : RunFunctionRequest.t) (name : string)
    : error + resource.Credentials.t :=
  match RunFunctionRequest.Credentials req !! name with
  | None => inl (name +:+ ": credential not found")
  | Some (Credentials_CredentialData data) => inr (resource.Credentials.mk data)
  | Some Credentials_unset => inl "%!s(<nil>): not a supported credential source"
  end.

End request.

(** ** github.com/crossplane/function-sdk-go/response *)
Module response.

(** One minute. *)
Definition DefaultTTL : Z := 60.

(** The response starts from the desired state and the context of the
    request, with no result and no condition. *)
Definition To (req : RunFunctionRequest.t) (ttl : Z) : RunFunctionResponse.t :=
  RunFunctionResponse.mk
    (Some (ResponseMeta.mk (GetTag (RunFunctionRequest.Meta req)) ttl))
    (RunFunctionRequest.Desired req)
    []
    (RunFunctionRequest.Context req)
    [].

Definition Fatal (rsp : RunFunctionResponse.t) (err : error) : RunFunctionResponse.t :=
  RunFunctionResponse.mk
    (RunFunctionResponse.Meta rsp)
    (RunFunctionResponse.Desired rsp)
    (RunFunctionResponse.Results rsp ++ [Result.mk SEVERITY_FATAL err (Some TARGET_COMPOSITE)])
    (RunFunctionResponse.Context rsp)
    (RunFunctionResponse.Conditions rsp).

Definition SetContextKey (rsp : RunFunctionResponse.t) (key : string) (v : structpb.Value)
    : RunFunctionResponse.t :=
  RunFunctionResponse.mk
    (RunFunctionResponse.Meta rsp)
    (RunFunctionResponse.Desired rsp)
    (RunFunctionResponse.Results rsp)
    (Some (<[key := v]> (default ∅ (RunFunctionResponse.Context rsp))))
    (RunFunctionResponse.Conditions rsp).

(** The desired composite is replaced by the converted resource, also
    when the conversion fails: its document is then nil, and the error is
    returned.  This is the function as the SDK has it up to v0.4.0; later
    versions return the error of a failed conversion and leave the desired
    state as it is.  The two agree whenever the conversion succeeds, and
    on the composed resources always. *)
Definition SetDesiredCompositeResource (w : World) (rsp : RunFunctionResponse.t)
    (xr : resource.Composite.t) : RunFunctionResponse.t * option error :=
  let desired := default State.empty (RunFunctionResponse.Desired rsp) in
  let '(s, err) :=
    match AsStruct w (resource.Composite.Object xr) with
    | inr s => (Some s, None)
    | inl err => (None, Some (Errorf_w "cannot convert *composite.Unstructured to desired composite resource: " err))
    end in
  (RunFunctionResponse.mk
     (RunFunctionResponse.Meta rsp)
     (Some (State.mk (Some (Resource.mk s (resource.Composite.ConnectionDetails xr)))
                     (State.Resources desired)))
     (RunFunctionResponse.Results rsp)
     (RunFunctionResponse.Context rsp)
     (RunFunctionResponse.Conditions rsp),
   err).

(** A [ConditionOption] points at the condition just appended: here, its
    index in the list of conditions. *)
Definition ConditionOption : Type := nat.

Definition ConditionTrue (rsp : RunFunctionResponse.t) (typ reason : string)
    : RunFunctionResponse.t * ConditionOption :=
  (RunFunctionResponse.mk
     (RunFunctionResponse.Meta rsp)
     (RunFunctionResponse.Desired rsp)
     (RunFunctionResponse.Results rsp)
     (RunFunctionResponse.Context rsp)
     (RunFunctionResponse.Conditions rsp
        ++ [Condition.mk typ STATUS_CONDITION_TRUE reason (Some TARGET_COMPOSITE)]),
   length (RunFunctionResponse.Conditions rsp)).

Definition TargetCompositeAndClaim (rc : RunFunctionResponse.t * ConditionOption)
    : RunFunctionResponse.t :=
  let '(rsp, c) := rc in
  RunFunctionResponse.mk
    (RunFunctionResponse.Meta rsp)
    (RunFunctionResponse.Desired rsp)
    (RunFunctionResponse.Results rsp)
    (RunFunctionResponse.Context rsp)
    (alter (λ k, Condition.mk (Condition.Type_ k) (Condition.Status k) (Condition.Reason k)
                   (Some TARGET_COMPOSITE_AND_CLAIM))
           c (RunFunctionResponse.Conditions rsp)).

End response.

(** ** functions/usergroup-manager/fn.go *)

(** [string(b)] for a [[]byte]. *)
Definition string_of_bytes (b : bytes) : string := string_of_list_byte b.

(** [m[key]] on a Go map of byte slices: the zero value for a missing key. *)
Definition index (m : gmap string bytes) (key : string) : bytes := default [] (m !! key).

(** [len(s)], a Go [int]. *)
Definition len {A} (s : list A) : Z := Z.of_nat (length s).

(** [fmt.Sprintf("Discovered %d ElastiCache users", n)]. *)
Definition Sprintf_Discovered (n : Z) : string :=
  "Discovered " +:+ pretty n +:+ " ElastiCache users".

(** The body of the loop over [describeOutput.Users] (lines 80-85), on the
    pair of [userIDs] and the trace. *)
Definition collect (st : list string * list Event) (user : aws.User.t) : list string * list Event :=
  match aws.User.UserId user with
  | Some id =>
      (st.1 ++ [id],
       st.2 ++ [Info "Discovered user"
                  [("userId", Str id); ("userName", Str (aws.ToString (aws.User.UserName user)))]])
  | None => st
  end.

(** The closure of lines 91-97: a slice of [len(userIDs)] values, the
    [i]-th set to the string value of the [i]-th identifier. *)
Definition context_values (userIDs : list string) : list structpb.Value :=
  foldl (λ values '(i, id), <[i := structpb.NewStringValue id]> values)
        (replicate (length userIDs) structpb.NullValue)
        (imap pair userIDs).

(** The map literal of lines 101-104. *)
Definition status_of (userIDs : list string) : any :=
  Map (<["discoveredUsers" := Int (len userIDs)]> (<["userIDs" := Strings userIDs]> ∅)).

(** [oxr.Resource.Object["status"] = v]. *)
Definition set_status (oxr : resource.Composite.t) (v : any) : resource.Composite.t :=
  resource.Composite.mk
    (<["status" := v]> (resource.Composite.Object oxr))
    (resource.Composite.ConnectionDetails oxr).

(** What one call of [RunFunction] leaves behind: the two Go results, the
    observed composite resource as it is in memory at the return ([None]
    when it was never obtained), and the trace. *)
Module Outcome.
Record t := mk {
  rsp : RunFunctionResponse.t;
  err : option error;
  oxr : option resource.Composite.t;
  trace : list Event }.
End Outcome.

(** Lines 55-59: the static provider, from the three entries of the
    credential data. *)
Definition provider_of (creds : resource.Credentials.t) : aws.StaticCredentialsProvider.t :=
  aws.NewStaticCredentialsProvider
    (string_of_bytes (index (resource.Credentials.Data creds) "aws_access_key_id"))
    (string_of_bytes (index (resource.Credentials.Data creds) "aws_secret_access_key"))
    (string_of_bytes (index (resource.Credentials.Data creds) "aws_session_token")).

Definition RunFunction (w : World) (req : RunFunctionRequest.t) : Outcome.t :=
  let log := [Info "Running usergroup-manager function"
                [("tag", Str (GetTag (RunFunctionRequest.Meta req)))]] in
  let rsp := response.To req response.DefaultTTL in
  match request.GetObservedCompositeResource w req with
  | inl err => Outcome.mk (response.Fatal rsp err) None None log
  | inr oxr =>
  let (region, log) :=
    match resource.GetString (resource.Composite.Object oxr) "spec.parameters.region" with
    | inr region => (region, log)
    | inl _ =>
        ("us-east-1",
         log ++ [Info "Region not specified, using default" [("default", Str "us-east-1")]])
    end in
  match request.GetCredentials req "aws" with
  | inl err =>
      Outcome.mk (response.Fatal rsp (Errorf_w "failed to get AWS credentials: " err))
                 None (Some oxr) log
  | inr creds =>
  let provider := provider_of creds in
  let log := log ++ [CallLoadDefaultConfig region provider] in
  match LoadDefaultConfig w region provider with
  | inl err =>
      Outcome.mk (response.Fatal rsp (Errorf_w "failed to load AWS config: " err))
                 None (Some oxr) log
  | inr cfg =>
  let log := log ++ [CallDescribeUsers] in
  match DescribeUsers w cfg with
  | inl err =>
      Outcome.mk (response.Fatal rsp (Errorf_w "failed to describe ElastiCache users: " err))
                 None (Some oxr) log
  | inr describeOutput =>
  let (userIDs, log) := foldl collect ([], log) (aws.DescribeUsersOutput.Users describeOutput) in
  let log := log ++ [Info "Total users discovered" [("count", Int (len userIDs))]] in
  let rsp := response.SetContextKey rsp "discoveredUserIDs"
               (structpb.NewListValue (context_values userIDs)) in
  let oxr := set_status oxr (status_of userIDs) in
  let (rsp, err) := response.SetDesiredCompositeResource w rsp oxr in
  let log := match err with
             | Some err => log ++ [Info "Failed to update XR status" [("error", Str err)]]
             | None => log
             end in
  let rsp := response.TargetCompositeAndClaim
               (response.ConditionTrue rsp "UserDiscoverySuccess" (Sprintf_Discovered (len userIDs))) in
  Outcome.mk rsp None (Some oxr) log
  end end end end.

(** ** Notions the statements use *)

(** The region the function works with (lines 39-43). *)
Definition region_of (oxr : resource.Composite.t) : string :=
  match resource.GetString (resource.Composite.Object oxr) "spec.parameters.region" with
  | inr region => region
  | inl _ => "us-east-1"
  end.

(** The run reads the composite [oxr], resolves the credentials, loads the
    configuration and gets the listing [out] from the API. *)
Inductive Listed (w : World) (req : RunFunctionRequest.t)
    (oxr : resource.Composite.t) (out : aws.DescribeUsersOutput.t) : Prop :=
  | Listed_intro (creds : resource.Credentials.t) (cfg : aws_Config w) :
      request.GetObservedCompositeResource w req = inr oxr →
      request.GetCredentials req "aws" = inr creds →
      LoadDefaultConfig w (region_of oxr) (provider_of creds) = inr cfg →
      DescribeUsers w cfg = inr out →
      Listed w req oxr out.

(** A response carries a fatal result. *)
Definition is_fatal (rsp : RunFunctionResponse.t) : Prop :=
  ∃ r, r ∈ RunFunctionResponse.Results rsp ∧ Result.Severity r = SEVERITY_FATAL.

(** Nothing was published: the context and the desired state are those of
    the request and there is no condition. *)
Definition nothing_published (req : RunFunctionRequest.t) (rsp : RunFunctionResponse.t) : Prop :=
  RunFunctionResponse.Context rsp = RunFunctionRequest.Context req
  ∧ RunFunctionResponse.Desired rsp = RunFunctionRequest.Desired req
  ∧ RunFunctionResponse.Conditions rsp = [].

(** The identifier sequence in the words of the specification: keep the
    entries whose identifier is present, then take their identifiers. *)
Definition present_identifiers (users : list aws.User.t) : list string :=
  (λ u, default "" (aws.User.UserId u)) <$> filter (λ u, is_Some (aws.User.UserId u)) users.

(** The condition of a completed run that found [n] users. *)
Definition success_condition (n : Z) : Condition.t :=
  Condition.mk "UserDiscoverySuccess" STATUS_CONDITION_TRUE (Sprintf_Discovered n)
               (Some TARGET_COMPOSITE_AND_CLAIM).

(** The lines logged by the loop, one per kept entry. *)
Definition discovered_lines (users : list aws.User.t) : list Event :=
  omap (λ u, (λ id, Info "Discovered user"
                      [("userId", Str id); ("userName", Str (aws.ToString (aws.User.UserName u)))])
               <$> aws.User.UserId u) users.

Definition first_line (req : RunFunctionRequest.t) : Event :=
  Info "Running usergroup-manager function" [("tag", Str (GetTag (RunFunctionRequest.Meta req)))].

Definition default_region_line : Event :=
  Info "Region not specified, using default" [("default", Str "us-east-1")].

(** The lines of lines 27-43. *)
Definition opening (req : RunFunctionRequest.t) (oxr : resource.Composite.t) : list Event :=
  match resource.GetString (resource.Composite.Object oxr) "spec.parameters.region" with
  | inr _ => [first_line req]
  | inl _ => [first_line req; default_region_line]
  end.

(** The run stops early: with which composite in memory, with which
    message, and after which trace. *)
Inductive Aborted (w : World) (req : RunFunctionRequest.t)
    : option resource.Composite.t → error → list Event → Prop :=
  | Aborted_unreadable e :
      request.GetObservedCompositeResource w req = inl e →
      Aborted w req None e [first_line req]
  | Aborted_credentials oxr e :
      request.GetObservedCompositeResource w req = inr oxr →
      request.GetCredentials req "aws" = inl e →
      Aborted w req (Some oxr) (Errorf_w "failed to get AWS credentials: " e) (opening req oxr)
  | Aborted_config oxr creds e :
      request.GetObservedCompositeResource w req = inr oxr →
      request.GetCredentials req "aws" = inr creds →
      LoadDefaultConfig w (region_of oxr) (provider_of creds) = inl e →
      Aborted w req (Some oxr) (Errorf_w "failed to load AWS config: " e)
        (opening req oxr ++ [CallLoadDefaultConfig (region_of oxr) (provider_of creds)])
  | Aborted_api oxr creds cfg e :
      request.GetObservedCompositeResource w req = inr oxr →
      request.GetCredentials req "aws" = inr creds →
      LoadDefaultConfig w (region_of oxr) (provider_of creds) = inr cfg →
      DescribeUsers w cfg = inl e →
      Aborted w req (Some oxr) (Errorf_w "failed to describe ElastiCache users: " e)
        (opening req oxr
           ++ [CallLoadDefaultConfig (region_of oxr) (provider_of creds); CallDescribeUsers]).

(** The outcome of a run that stops early. *)
Definition aborted (req : RunFunctionRequest.t) (oxr : option resource.Composite.t)
    (msg : error) (t : list Event) : Outcome.t :=
  Outcome.mk (response.Fatal (response.To req response.DefaultTTL) msg) None oxr t.

(** The response of a run that got a listing with the identifiers [ids]. *)
Definition published (w : World) (req : RunFunctionRequest.t)
    (oxr : resource.Composite.t) (ids : list string) : RunFunctionResponse.t :=
  RunFunctionResponse.mk
    (Some (ResponseMeta.mk (GetTag (RunFunctionRequest.Meta req)) response.DefaultTTL))
    (Some (State.mk
             (Some (Resource.mk
                      (match AsStruct w (<["status" := status_of ids]> (resource.Composite.Object oxr)) with
                       | inr s => Some s
                       | inl _ => None
                       end)
                      (resource.Composite.ConnectionDetails oxr)))
             (State.Resources (default State.empty (RunFunctionRequest.Desired req)))))
    []
    (Some (<["discoveredUserIDs" := structpb.ListValue (structpb.StringValue <$> ids)]>
             (default ∅ (RunFunctionRequest.Context req))))
    [success_condition (len ids)].

(** The line logged when the status does not reach the response. *)
Definition status_lines (w : World) (oxr : resource.Composite.t) (ids : list string) : list Event :=
  match AsStruct w (<["status" := status_of ids]> (resource.Composite.Object oxr)) with
  | inr _ => []
  | inl e => [Info "Failed to update XR status"
                [("error", Str (Errorf_w "cannot convert *composite.Unstructured to desired composite resource: " e))]]
  end.

(** The entry under [discoveredUserIDs] in the context of a response. *)
Definition context_entry (rsp : RunFunctionResponse.t) : option structpb.Value :=
  RunFunctionResponse.Context rsp ≫= (.!! "discoveredUserIDs").

(** The status of a composite. *)
Definition status (oxr : resource.Composite.t) : option any :=
  resource.Composite.Object oxr !! "status".

(** The function has not touched the composite it read, if it read one. *)
Definition status_untouched (w : World) (req : RunFunctionRequest.t) (o : Outcome.t) : Prop :=
  match request.GetObservedCompositeResource w req with
  | inl _ => Outcome.oxr o = None
  | inr oxr => Outcome.oxr o = Some oxr
  end.

(** The fatal result carrying [msg]. *)
Definition fatal_result (msg : error) : Result.t :=
  Result.mk SEVERITY_FATAL msg (Some TARGET_COMPOSITE).

(** The document of the desired composite in a response. *)
Definition desired_document (rsp : RunFunctionResponse.t) : option structpb.Struct :=
  (RunFunctionResponse.Desired rsp ≫= State.Composite) ≫= Resource.Resource.

(** The request [req] with other credentials. *)
Definition with_credentials (req : RunFunctionRequest.t) (credentials : gmap string Credentials)
    : RunFunctionRequest.t :=
  RunFunctionRequest.mk
    (RunFunctionRequest.Meta req)
    (RunFunctionRequest.Observed req)
    (RunFunctionRequest.Desired req)
    (RunFunctionRequest.Context req)
    credentials.

(** An AWS call in the trace. *)
Definition is_call (ev : Event) : Prop :=
  match ev with
  | Info _ _ => False
  | CallLoadDefaultConfig _ _ | CallDescribeUsers => True
  end.

(** The AWS calls of a trace, in order. *)
Definition calls (t : list Event) : list Event :=
  omap (λ ev, match ev with Info _ _ => None | _ => Some ev end) t.

(** The world [w] in which every listing comes with the marker [marker]
    (a marker tells that more entries wait on a further page). *)
Definition with_marker (marker : option string) (w : World) : World :=
  {| aws_Config := aws_Config w;
     AsObject := AsObject w;
     AsStruct := AsStruct w;
     LoadDefaultConfig := LoadDefaultConfig w;
     DescribeUsers := λ cfg,
       match DescribeUsers w cfg with
       | inl err => inl err
       | inr out => inr (aws.DescribeUsersOutput.mk (aws.DescribeUsersOutput.Users out) marker)
       end |}.

(** The entries of the response context. *)
Definition context_fields (c : option structpb.Struct) : structpb.Struct := default ∅ c.

(** The desired composed resources of a state. *)
Definition desired_resources (d : option State.t) : gmap string Resource.t :=
  State.Resources (default State.empty d).

(** The rule of the AWS client on static credentials: they cannot be
    retrieved when the access key or the secret key is empty, so a call
    made with a configuration that holds such a provider fails. *)
Definition refuses_empty_static (w : World) : Prop :=
  ∀ region p cfg,
    LoadDefaultConfig w region p = inr cfg →
    aws.StaticCredentialsProvider.AccessKeyID p = ""
    ∨ aws.StaticCredentialsProvider.SecretAccessKey p = "" →
    ∃ e, DescribeUsers w cfg = inl e.

(** The calls after the credentials that can end the run: for a composite
    that is read, the configuration does not load or the API call fails. *)
Definition client_fails (w : World) (req : RunFunctionRequest.t)
    (creds : resource.Credentials.t) : Prop :=
  (∃ e, request.GetObservedCompositeResource w req = inl e)
  ∨ ∃ oxr,
      request.GetObservedCompositeResource w req = inr oxr
      ∧ ((∃ e, LoadDefaultConfig w (region_of oxr) (provider_of creds) = inl e)
         ∨ ∃ cfg e, LoadDefaultConfig w (region_of oxr) (provider_of creds) = inr cfg
                    ∧ DescribeUsers w cfg = inl e).

(** ** Worlds and requests to run the function on *)
Module fixture.

(** [Struct.AsMap]: numbers become [float64], lists [[]any]. *)
Fixpoint AsInterface (v : structpb.Value) : any :=
  match v with
  | structpb.NullValue => Nil
  | structpb.NumberValue x => Float64 x
  | structpb.StringValue s => Str s
  | structpb.BoolValue b => Bool b
  | structpb.StructValue fields => Map (AsInterface <$> fields)
  | structpb.ListValue values => Slice (AsInterface <$> values)
  end.

(** [structpb.NewValue] has a case for each of these dynamic types but
    none for [[]string]. *)
Fixpoint convertible (v : any) : bool :=
  match v with
  | Map m => map_fold (λ _ x acc, convertible x && acc) true m
  | Slice l => forallb convertible l
  | Strings _ => false
  | _ => true
  end.

Fixpoint NewValue (v : any) : structpb.Value :=
  match v with
  | Nil => structpb.NullValue
  | Bool b => structpb.BoolValue b
  | Int n => structpb.NumberValue (QArith_base.inject_Z n)
  | Float64 x => structpb.NumberValue x
  | Str s => structpb.StringValue s
  | Map m => structpb.StructValue (NewValue <$> m)
  | Slice l => structpb.ListValue (NewValue <$> l)
  | Strings l => structpb.ListValue (structpb.StringValue <$> l)
  end.

(** A conversion in the way of [structpb.NewStruct]. *)
Definition NewStruct (object : gmap string any) : error + structpb.Struct :=
  if convertible (Map object) then inr (NewValue <$> object)
  else inl "invalid type: []string".

(** Static credentials are usable when the access key and the secret
    key are not empty; a session token is optional. *)
Definition account (users : list aws.User.t) (p : aws.StaticCredentialsProvider.t)
    : error + aws.DescribeUsersOutput.t :=
  if bool_decide (aws.StaticCredentialsProvider.AccessKeyID p = "")
     || bool_decide (aws.StaticCredentialsProvider.SecretAccessKey p = "")
  then inl "static credentials are empty"
  else inr (aws.DescribeUsersOutput.mk users None).

(** A world with an account holding [users]; the configuration is the
    region with the provider. *)
Definition world (asStruct : gmap string any → error + structpb.Struct)
    (users : list aws.User.t) : World :=
  {| aws_Config := string * aws.StaticCredentialsProvider.t;
     AsObject := λ s, inr (AsInterface <$> default ∅ s);
     AsStruct := asStruct;
     LoadDefaultConfig := λ region p, inr (region, p);
     DescribeUsers := λ cfg, account users cfg.2 |}.

(** A world in which the observed document cannot be read. *)
Definition unreadable : World :=
  {| aws_Config := unit;
     AsObject := λ _, inl "cannot unmarshal observed composite resource";
     AsStruct := NewStruct;
     LoadDefaultConfig := λ _ _, inr ();
     DescribeUsers := λ _, inr (aws.DescribeUsersOutput.mk [] None) |}.

(** A world in which the API refuses every call. *)
Definition throttled : World :=
  {| aws_Config := unit;
     AsObject := λ s, inr (AsInterface <$> default ∅ s);
     AsStruct := NewStruct;
     LoadDefaultConfig := λ _ _, inr ();
     DescribeUsers := λ _, inl "ThrottlingException: Rate exceeded" |}.

Definition b (s : string) : bytes := list_byte_of_string s.

Definition full_bundle : gmap string bytes :=
  <["aws_access_key_id" := b "AKIDEXAMPLE"]>
    (<["aws_secret_access_key" := b "secret"]>
       (<["aws_session_token" := b "token"]> ∅)).

(** The keys of a long-lived user: no session token. *)
Definition bundle_without_token : gmap string bytes :=
  <["aws_access_key_id" := b "AKIDEXAMPLE"]> (<["aws_secret_access_key" := b "secret"]> ∅).

Definition document (region : option string) : structpb.Struct :=
  <["apiVersion" := structpb.StringValue "example.org/v1"]>
    (<["kind" := structpb.StringValue "XCacheInfra"]>
       (<["spec" := structpb.StructValue
            {[ "parameters" := structpb.StructValue
                 (match region with
                  | Some r => {[ "region" := structpb.StringValue r ]}
                  | None => ∅
                  end) ]} ]> ∅)).

Definition request_with (region : option string) (credentials : gmap string Credentials)
    : RunFunctionRequest.t :=
  RunFunctionRequest.mk
    (Some (RequestMeta.mk "tag-1"))
    (Some (State.mk (Some (Resource.mk (Some (document region)) ∅)) ∅))
    None
    (Some {[ "apiextensions.crossplane.io/environment" := structpb.NullValue ]})
    credentials.

Definition aws_data (data : gmap string bytes) : gmap string Credentials :=
  {[ "aws" := Credentials_CredentialData data ]}.

Definition user (id : string) : aws.User.t := aws.User.mk (Some id) (Some ("name-" +:+ id)).

Definition three_users : list aws.User.t := [user "u1"; user "u2"; user "u3"].

(** A listing with an entry without identifier and a repeated one. *)
Definition mixed_users : list aws.User.t :=
[user "u1"; aws.User.mk None (Some "anonymous"); user "u2"; user "u1"].

(** The composite read from [request_with region _]. *)
Definition observed (region : option string) : resource.Composite.t :=
resource.Composite.mk (AsInterface <$> document region) ∅.

Definition provider (session : string) : aws.StaticCredentialsProvider.t :=
aws.StaticCredentialsProvider.mk "AKIDEXAMPLE" "secret" session.

(** A world in which the AWS configuration does not load. *)
Definition misconfigured : World :=
  {| aws_Config := unit;
     AsObject := λ s, inr (AsInterface <$> default ∅ s);
     AsStruct := NewStruct;
     LoadDefaultConfig := λ _ _, inl "failed to load shared config file";
     DescribeUsers := λ _, inr (aws.DescribeUsersOutput.mk [] None) |}.

(** A bundle without its secret key. *)
Definition bundle_without_secret : gmap string bytes :=
  <["aws_access_key_id" := b "AKIDEXAMPLE"]> (<["aws_session_token" := b "token"]> ∅).

End fixture.

(** ** The loop and the closure *)

Lemma foldl_collect (users : list aws.User.t) :
  ∀ ids log,
    foldl collect (ids, log) users
    = (ids ++ omap aws.User.UserId users, log ++ discovered_lines users).
Proof.
  induction users as [|u users IH]; intros ids log; simpl.
  - by rewrite !app_nil_r.
  - unfold collect at 2, discovered_lines. simpl.
    destruct (aws.User.UserId u) as [id|]; simpl.
    + rewrite IH. unfold discovered_lines. by rewrite <- !app_assoc.
    + by rewrite IH.
Qed.

Lemma omap_present (users : list aws.User.t) :
  omap aws.User.UserId users = present_identifiers users.
Proof.
  unfold present_identifiers.
  induction users as [|u users IH]; [done|].
  csimpl. destruct (aws.User.UserId u) as [id|] eqn:E.
  - rewrite filter_cons_True by (rewrite E; eauto).
    csimpl. by rewrite E, IH.
  - rewrite filter_cons_False; [done|]. rewrite E. by intros [? ?].
Qed.

(** Every identifier is published as often as entries carry it. *)
Lemma omap_occurrences (users : list aws.User.t) (x : string) :
  length (filter (λ y, y = x) (omap aws.User.UserId users))
  = length (filter (λ u, aws.User.UserId u = Some x) users).
Proof.
  induction users as [|u users IH]; [done|].
  csimpl. destruct (aws.User.UserId u) as [id|] eqn:E.
  - destruct (decide (id = x)) as [->|Hne].
    + rewrite filter_cons_True by done.
      rewrite (filter_cons_True (λ u, aws.User.UserId u = Some x)) by done.
      csimpl. by rewrite IH.
    + rewrite filter_cons_False by done.
      rewrite (filter_cons_False (λ u, aws.User.UserId u = Some x)) by congruence.
      done.
  - rewrite (filter_cons_False (λ u, aws.User.UserId u = Some x)) by congruence.
    done.
Qed.

(** The slice is filled from the left: after the identifiers [done], the
    remaining places still hold their initial value. *)
Lemma fill_values (rest : list string) :
  ∀ done_ : list string,
    foldl (λ values '(i, id), <[i := structpb.NewStringValue id]> values)
          ((structpb.StringValue <$> done_) ++ replicate (length rest) structpb.NullValue)
          (imap (λ i, pair (length done_ + i)%nat) rest)
    = structpb.StringValue <$> (done_ ++ rest).
Proof.
  induction rest as [|id rest IH]; intros done_.
  - simpl. by rewrite !app_nil_r.
  - rewrite imap_cons. simpl.
    rewrite Nat.add_0_r.
    replace (<[length done_ := structpb.NewStringValue id]>
               ((structpb.StringValue <$> done_)
                  ++ structpb.NullValue :: replicate (length rest) structpb.NullValue))
      with ((structpb.StringValue <$> (done_ ++ [id]))
              ++ replicate (length rest) structpb.NullValue).
    + rewrite (imap_ext _ (λ i, pair (length (done_ ++ [id]) + i)%nat)).
      * rewrite IH. by rewrite <- app_assoc.
      * intros i y _. simpl. rewrite length_app. simpl. f_equal. lia.
    + rewrite fmap_app, <- app_assoc. simpl.
      rewrite insert_app_r_alt by (rewrite length_fmap; lia).
      rewrite length_fmap, Nat.sub_diag. done.
Qed.

Lemma context_values_fmap (userIDs : list string) :
  context_values userIDs = structpb.StringValue <$> userIDs.
Proof. apply (fill_values userIDs []). Qed.

(** ** The paths through [RunFunction] *)

Lemma RunFunction_aborted w req oxr msg t :
  Aborted w req oxr msg t → RunFunction w req = aborted req oxr msg t.
Proof.
  unfold aborted.
  destruct 1 as [e H1|oxr e H1 H2|oxr creds e H1 H2 H3|oxr creds cfg e H1 H2 H3 H4];
    unfold RunFunction, opening, region_of in *; rewrite H1; [done|..];
    destruct (resource.GetString _ _); rewrite H2, ?H3, ?H4, <- ?app_assoc; done.
Qed.

Lemma RunFunction_listed w req oxr out :
  Listed w req oxr out →
  ∃ creds,
    request.GetCredentials req "aws" = inr creds ∧
    let ids := omap aws.User.UserId (aws.DescribeUsersOutput.Users out) in
    RunFunction w req
    = Outcome.mk (published w req oxr ids) None (Some (set_status oxr (status_of ids)))
        (opening req oxr
           ++ [CallLoadDefaultConfig (region_of oxr) (provider_of creds); CallDescribeUsers]
           ++ discovered_lines (aws.DescribeUsersOutput.Users out)
           ++ [Info "Total users discovered" [("count", Int (len ids))]]
           ++ status_lines w oxr ids).
Proof.
  intros [creds cfg H1 H2 H3 H4]. exists creds. split; [done|].
  intros ids. unfold RunFunction, opening. rewrite H1.
  unfold region_of in *.
  destruct (resource.GetString _ _); rewrite H2, H3, H4;
    rewrite foldl_collect; simpl; fold ids;
    rewrite context_values_fmap;
    unfold response.SetDesiredCompositeResource, published, status_lines; simpl;
    destruct (AsStruct w _); simpl; rewrite <- ?app_assoc; simpl;
    rewrite ?app_nil_r; reflexivity.
Qed.

(** Every run either stops early or gets a listing. *)
Lemma RunFunction_paths w req :
  (∃ oxr msg t, Aborted w req oxr msg t) ∨ (∃ oxr out, Listed w req oxr out).
Proof.
  destruct (request.GetObservedCompositeResource w req) as [e|oxr] eqn:H1.
  { left. eauto using Aborted. }
  destruct (request.GetCredentials req "aws") as [e|creds] eqn:H2.
  { left. eauto using Aborted. }
  destruct (LoadDefaultConfig w (region_of oxr) (provider_of creds)) as [e|cfg] eqn:H3.
  { left. eauto using Aborted. }
  destruct (DescribeUsers w cfg) as [e|out] eqn:H4.
  { left. eauto using Aborted. }
  right. eauto using Listed.
Qed.

(** What an early stop leaves in the response. *)
Lemma aborted_fatal req oxr msg t :
  is_fatal (Outcome.rsp (aborted req oxr msg t))
  ∧ nothing_published req (Outcome.rsp (aborted req oxr msg t)).
Proof.
  split.
  - exists (fatal_result msg). split; [|done].
    simpl. apply list_elem_of_here.
  - by repeat split.
Qed.

Lemma aborted_untouched w req oxr msg t :
  Aborted w req oxr msg t → status_untouched w req (aborted req oxr msg t).
Proof. unfold status_untouched. destruct 1 as [? H|? ? H|? ? ? H|? ? ? ? H]; by rewrite H. Qed.

Lemma published_not_fatal w req oxr ids : ¬ is_fatal (published w req oxr ids).
Proof. intros (r & Hr & _). simpl in Hr. by apply not_elem_of_nil in Hr. Qed.

Lemma calls_app (t1 t2 : list Event) : calls (t1 ++ t2) = calls t1 ++ calls t2.
Proof. apply omap_app. Qed.

Lemma calls_opening req oxr : calls (opening req oxr) = [].
Proof. unfold opening. by destruct (resource.GetString _ _). Qed.

Lemma calls_discovered_lines users : calls (discovered_lines users) = [].
Proof.
  induction users as [|u users IH]; [done|].
  unfold discovered_lines in *. csimpl. by destruct (aws.User.UserId u).
Qed.

Lemma calls_status_lines w oxr ids : calls (status_lines w oxr ids) = [].
Proof. unfold status_lines. by destruct (AsStruct w _). Qed.

Lemma aws_calls_shape w req oxr creds :
  request.GetObservedCompositeResource w req = inr oxr →
  request.GetCredentials req "aws" = inr creds →
  calls (Outcome.trace (RunFunction w req))
  = [CallLoadDefaultConfig (region_of oxr) (provider_of creds)]
  ∨ calls (Outcome.trace (RunFunction w req))
    = [CallLoadDefaultConfig (region_of oxr) (provider_of creds); CallDescribeUsers].
Proof.
  intros H1 H2.
  destruct (RunFunction_paths w req) as [(oxr1 & msg & t & HA)|(oxr1 & out & HL)].
  - rewrite (RunFunction_aborted _ _ _ _ _ HA). cbn [Outcome.trace aborted].
    destruct HA as [e H|oxr1 e H H'|oxr1 creds1 e H H' _|oxr1 creds1 cfg e H H' _ _];
      rewrite H1 in H; [done|injection H as <-..]; rewrite H2 in H';
      [done|injection H' as <-..]; rewrite calls_app, calls_opening; auto.
  - destruct (RunFunction_listed _ _ _ _ HL) as (creds1 & H2' & ->). cbn [Outcome.trace].
    destruct HL as [? ? H _ _ _]. rewrite H1 in H. injection H as <-.
    rewrite H2 in H2'. injection H2' as <-.
    rewrite !calls_app, calls_opening, calls_discovered_lines, calls_status_lines. auto.
Qed.

(** A run with a fatal result has published nothing. *)
Lemma fatal_publishes_nothing w req :
  is_fatal (Outcome.rsp (RunFunction w req)) →
  nothing_published req (Outcome.rsp (RunFunction w req))
  ∧ status_untouched w req (RunFunction w req).
Proof.
  intros Hf.
  destruct (RunFunction_paths w req) as [(oxr & msg & t & HA)|(oxr & out & HL)].
  - rewrite (RunFunction_aborted _ _ _ _ _ HA).
    split; [apply aborted_fatal|by apply aborted_untouched].
  - destruct (RunFunction_listed _ _ _ _ HL) as (creds & _ & Heq).
    rewrite Heq in Hf. by apply published_not_fatal in Hf.
Qed.

(** With credentials that resolve, the function has no way to fail of its
    own: the run is fatal exactly when a call around them fails. *)
Lemma fatal_of_resolved w req creds :
  request.GetCredentials req "aws" = inr creds →
  is_fatal (Outcome.rsp (RunFunction w req)) ↔ client_fails w req creds.
Proof.
  intros H2. unfold client_fails. split.
  - intros Hf.
    destruct (RunFunction_paths w req) as [(oxr & msg & t & HA)|(oxr & out & HL)].
    + destruct HA as [e H1|oxr e H1 H2'|oxr creds' e H1 H2' H3|oxr creds' cfg e H1 H2' H3 H4].
      * left. by exists e.
      * congruence.
      * replace creds' with creds in * by congruence. right. exists oxr. split; [done|].
        left. by exists e.
      * replace creds' with creds in * by congruence. right. exists oxr. split; [done|].
        right. by exists cfg, e.
    + destruct (RunFunction_listed _ _ _ _ HL) as (creds' & _ & Heq).
      rewrite Heq in Hf. by apply published_not_fatal in Hf.
  - intros Hc.
    assert (∃ oxr msg t, Aborted w req oxr msg t) as (oxr & msg & t & HA).
    { destruct Hc as [[e H1]|(oxr & H1 & [[e H3]|(cfg & e & H3 & H4)])]; eauto using Aborted. }
    rewrite (RunFunction_aborted _ _ _ _ _ HA). apply aborted_fatal.
Qed.

Lemma fixture_world_refuses asStruct users :
  refuses_empty_static (fixture.world asStruct users).
Proof.
  intros region p cfg Hl Hempty. simpl in *. injection Hl as <-. simpl.
  unfold fixture.account.
  destruct Hempty as [-> | ->]; rewrite ?bool_decide_eq_true_2 by done;
    rewrite ?orb_true_r; eauto.
Qed.

(** ** The published identifiers *)

(** C1.  For every listing the API returns, the sequence published under
    [discoveredUserIDs] is the sequence of the identifiers of the entries
    whose identifier is present, in the order of the listing, and every
    identifier occurs in it exactly as often as entries of the listing
    carry it. *)
Theorem published_identifiers_exact w req oxr out :
  Listed w req oxr out →
  ∃ ids,
    context_entry (Outcome.rsp (RunFunction w req))
    = Some (structpb.ListValue (structpb.StringValue <$> ids))
    ∧ ids = present_identifiers (aws.DescribeUsersOutput.Users out)
    ∧ ∀ x, length (filter (λ y, y = x) ids)
           = length (filter (λ u, aws.User.UserId u = Some x) (aws.DescribeUsersOutput.Users out)).
Proof.
  intros HL. destruct (RunFunction_listed _ _ _ _ HL) as (creds & _ & ->).
  exists (omap aws.User.UserId (aws.DescribeUsersOutput.Users out)).
  split; [|split].
  - unfold context_entry. simpl. by rewrite lookup_insert_eq.
  - apply omap_present.
  - apply omap_occurrences.
Qed.

Lemma published_identifiers_exact_witness :
  let w := fixture.world fixture.NewStruct fixture.mixed_users in
  let req := fixture.request_with (Some "eu-west-1") (fixture.aws_data fixture.full_bundle) in
  let out := aws.DescribeUsersOutput.mk fixture.mixed_users None in
  Listed w req (fixture.observed (Some "eu-west-1")) out
  ∧ ∃ ids,
      context_entry (Outcome.rsp (RunFunction w req))
      = Some (structpb.ListValue (structpb.StringValue <$> ids))
      ∧ ids = present_identifiers fixture.mixed_users
      ∧ ∀ x, length (filter (λ y, y = x) ids)
             = length (filter (λ u, aws.User.UserId u = Some x) fixture.mixed_users).
Proof.
  intros w req out.
  assert (HL : Listed w req (fixture.observed (Some "eu-west-1")) out).
  { apply (Listed_intro w req _ _ (resource.Credentials.mk fixture.full_bundle)
             ("eu-west-1", fixture.provider "token")); vm_compute; reflexivity. }
  split; [exact HL|].
  exact (published_identifiers_exact w req _ out HL).
Defined.

(** An entry whose identifier is present but of length zero is kept like
    any other: the test of line 81 is on the pointer. *)
Example empty_identifier_kept :
  (foldl collect ([], []) [aws.User.mk (Some "") None; fixture.user "u1"]).1 = [""; "u1"].
Proof. reflexivity. Qed.

(** ** Credentials *)

(** C2, as amended.  When no usable credential bundle named [aws] comes
    with the request (none under that name, or one whose source is not
    credential data), the run ends with a fatal result, and neither a
    context entry nor a status is written.  So it does for every bundle
    without its access key or without its secret key, with an AWS client
    that refuses static credentials whose access key or secret key is
    empty: the function has no test of its own on the fields and reads a
    missing one as the empty string.  A bundle without its session token
    is not refused: the configuration is loaded with the empty string for
    the token, and the run, as with any bundle that resolves, is fatal
    exactly when the composite cannot be read, the configuration does not
    load or the API call fails. *)
Theorem missing_credentials_abort w req :
  let o := RunFunction w req in
  (∀ e,
     request.GetCredentials req "aws" = inl e →
     is_fatal (Outcome.rsp o) ∧ nothing_published req (Outcome.rsp o) ∧ status_untouched w req o)
  ∧ (∀ data,
       RunFunctionRequest.Credentials req !! "aws" = Some (Credentials_CredentialData data) →
       data !! "aws_access_key_id" = None ∨ data !! "aws_secret_access_key" = None →
       refuses_empty_static w →
       is_fatal (Outcome.rsp o) ∧ nothing_published req (Outcome.rsp o) ∧ status_untouched w req o)
  ∧ (∀ data,
       RunFunctionRequest.Credentials req !! "aws" = Some (Credentials_CredentialData data) →
       (is_fatal (Outcome.rsp o) ↔ client_fails w req (resource.Credentials.mk data))
       ∧ (data !! "aws_session_token" = None →
          ∀ oxr,
            request.GetObservedCompositeResource w req = inr oxr →
            ∃ p,
              head (calls (Outcome.trace o)) = Some (CallLoadDefaultConfig (region_of oxr) p)
              ∧ aws.StaticCredentialsProvider.SessionToken p = "")).
Proof.
  intros o. subst o.
  assert (Hres : ∀ data,
            RunFunctionRequest.Credentials req !! "aws" = Some (Credentials_CredentialData data) →
            request.GetCredentials req "aws" = inr (resource.Credentials.mk data)).
  { intros data Hd. unfold request.GetCredentials. by rewrite Hd. }
  split; [|split].
  - intros e H2.
    assert (∃ oxr msg t, Aborted w req oxr msg t) as (oxr & msg & t & HA).
    { destruct (request.GetObservedCompositeResource w req) eqn:H1; eauto using Aborted. }
    rewrite (RunFunction_aborted _ _ _ _ _ HA).
    destruct (aborted_fatal req oxr msg t) as [Hf Hn].
    repeat split; try done. by apply aborted_untouched.
  - intros data Hd Hmiss Hrule.
    pose proof (Hres data Hd) as H2.
    assert (Hempty : aws.StaticCredentialsProvider.AccessKeyID
                       (provider_of (resource.Credentials.mk data)) = ""
                     ∨ aws.StaticCredentialsProvider.SecretAccessKey
                         (provider_of (resource.Credentials.mk data)) = "").
    { unfold provider_of, index. simpl. destruct Hmiss as [-> | ->]; auto. }
    assert (Hf : is_fatal (Outcome.rsp (RunFunction w req))).
    { apply (fatal_of_resolved w req _ H2). unfold client_fails.
      destruct (request.GetObservedCompositeResource w req) as [e|oxr] eqn:H1.
      { left. by exists e. }
      right. exists oxr. split; [done|].
      destruct (LoadDefaultConfig w (region_of oxr) (provider_of (resource.Credentials.mk data)))
        as [e|cfg] eqn:H3.
      { left. by exists e. }
      right. destruct (Hrule _ _ _ H3 Hempty) as [e H4]. by exists cfg, e. }
    split; [done|]. by apply fatal_publishes_nothing.
  - intros data Hd. pose proof (Hres data Hd) as H2. split.
    + by apply fatal_of_resolved.
    + intros Ht oxr H1. exists (provider_of (resource.Credentials.mk data)). split.
      * by destruct (aws_calls_shape w req oxr _ H1 H2) as [-> | ->].
      * unfold provider_of, index. simpl. by rewrite Ht.
Qed.

Lemma missing_credentials_abort_witness :
  let w := fixture.world fixture.NewStruct fixture.three_users in
  let req := fixture.request_with (Some "eu-west-1") (fixture.aws_data fixture.bundle_without_secret) in
  let none := fixture.request_with (Some "eu-west-1") ∅ in
  (request.GetCredentials none "aws" = inl "aws: credential not found"
   ∧ is_fatal (Outcome.rsp (RunFunction w none))
   ∧ nothing_published none (Outcome.rsp (RunFunction w none)))
  ∧ (fixture.bundle_without_secret !! "aws_secret_access_key" = None
     ∧ refuses_empty_static w
     ∧ is_fatal (Outcome.rsp (RunFunction w req))
     ∧ nothing_published req (Outcome.rsp (RunFunction w req))
     ∧ status_untouched w req (RunFunction w req)).
Proof.
  intros w req none. split.
  - destruct (missing_credentials_abort w none) as (HA & _ & _).
    destruct (HA "aws: credential not found" eq_refl) as (Hf & Hn & _).
    exact (conj eq_refl (conj Hf Hn)).
  - destruct (missing_credentials_abort w req) as (_ & HB & _).
    assert (Hk : fixture.bundle_without_secret !! "aws_secret_access_key" = None)
      by (vm_compute; reflexivity).
    pose proof (fixture_world_refuses fixture.NewStruct fixture.three_users) as Hrule.
    destruct (HB fixture.bundle_without_secret eq_refl (or_intror Hk) Hrule) as (Hf & Hn & Hu).
    exact (conj Hk (conj Hrule (conj Hf (conj Hn Hu)))).
Defined.

(** C2, as stated, fails: a bundle without a session token is accepted.
    The run lists the users and publishes them. *)
Lemma missing_session_token_not_fatal :
  let w := fixture.world fixture.NewStruct fixture.three_users in
  let req := fixture.request_with (Some "eu-west-1") (fixture.aws_data fixture.bundle_without_token) in
  RunFunctionRequest.Credentials req !! "aws"
  = Some (Credentials_CredentialData fixture.bundle_without_token)
  ∧ fixture.bundle_without_token !! "aws_session_token" = None
  ∧ ¬ is_fatal (Outcome.rsp (RunFunction w req))
  ∧ context_entry (Outcome.rsp (RunFunction w req))
    = Some (structpb.ListValue
              [structpb.StringValue "u1"; structpb.StringValue "u2"; structpb.StringValue "u3"])
  ∧ (Outcome.oxr (RunFunction w req) ≫= status) = Some (status_of ["u1"; "u2"; "u3"]).
Proof.
  intros w req. repeat split; try (vm_compute; reflexivity).
  intros (r & Hr & _).
  assert (E : RunFunctionResponse.Results (Outcome.rsp (RunFunction w req)) = [])
    by (vm_compute; reflexivity).
  rewrite E in Hr. by apply not_elem_of_nil in Hr.
Qed.

(** ** The API call *)

(** C3.  When the call that lists the users fails, the run ends with one
    fatal result carrying the wrapped error; the context and the desired
    state are those of the request, the composite in memory is as it was
    read, there is no condition, and the Go error is nil. *)
Theorem api_failure_aborts w req oxr creds cfg e :
  request.GetObservedCompositeResource w req = inr oxr →
  request.GetCredentials req "aws" = inr creds →
  LoadDefaultConfig w (region_of oxr) (provider_of creds) = inr cfg →
  DescribeUsers w cfg = inl e →
  let o := RunFunction w req in
  RunFunctionResponse.Results (Outcome.rsp o)
  = [fatal_result ("failed to describe ElastiCache users: " +:+ e)]
  ∧ is_fatal (Outcome.rsp o)
  ∧ nothing_published req (Outcome.rsp o)
  ∧ Outcome.oxr o = Some oxr
  ∧ status_untouched w req o
  ∧ Outcome.err o = None.
Proof.
  intros H1 H2 H3 H4 o.
  pose proof (Aborted_api w req oxr creds cfg e H1 H2 H3 H4) as HA.
  subst o. rewrite (RunFunction_aborted _ _ _ _ _ HA).
  destruct (aborted_fatal req (Some oxr) (Errorf_w "failed to describe ElastiCache users: " e)
              (opening req oxr
                 ++ [CallLoadDefaultConfig (region_of oxr) (provider_of creds); CallDescribeUsers]))
    as [Hf Hn].
  repeat split; try done.
  by apply aborted_untouched.
Qed.

Lemma api_failure_aborts_witness :
  let w := fixture.throttled in
  let req := fixture.request_with (Some "eu-west-1") (fixture.aws_data fixture.full_bundle) in
  DescribeUsers w () = inl "ThrottlingException: Rate exceeded"
  ∧ RunFunctionResponse.Results (Outcome.rsp (RunFunction w req))
    = [fatal_result "failed to describe ElastiCache users: ThrottlingException: Rate exceeded"]
  ∧ nothing_published req (Outcome.rsp (RunFunction w req)).
Proof.
  intros w req. split; [reflexivity|].
  destruct (api_failure_aborts w req (fixture.observed (Some "eu-west-1"))
              (resource.Credentials.mk fixture.full_bundle) () "ThrottlingException: Rate exceeded")
    as (Hr & _ & Hn & _); try (vm_compute; reflexivity).
  exact (conj Hr Hn).
Defined.

(** ** A completed run *)

Lemma omap_all_present (users : list aws.User.t) :
  ∀ ids, aws.User.UserId <$> users = Some <$> ids → omap aws.User.UserId users = ids.
Proof.
  induction users as [|u users IH]; intros [|id ids] Heq; try done.
  csimpl in *. injection Heq as -> Heq. csimpl. by rewrite (IH ids).
Qed.

Lemma status_of_fields (ids : list string) :
  status_of ids = Map {[ "discoveredUsers" := Int (len ids); "userIDs" := Strings ids ]}.
Proof. reflexivity. Qed.

(** C4.  When the API returns [n] users with the identifiers [ids], the
    run completes with: the list of the strings [ids] under
    [discoveredUserIDs] in the context; the status {discoveredUsers: n,
    userIDs: ids} in the composite; exactly one condition, of type
    UserDiscoverySuccess, true, carrying the text "Discovered n ElastiCache
    users" and aimed at the composite and its claim; and no result.  When
    the composite converts, the converted document is the desired composite
    of the response.  For [n = 0] the lists are empty and the count is 0. *)
Theorem discovery_outputs w req oxr out (ids : list string) :
  Listed w req oxr out →
  aws.User.UserId <$> aws.DescribeUsersOutput.Users out = Some <$> ids →
  let o := RunFunction w req in
  let n := len (aws.DescribeUsersOutput.Users out) in
  len ids = n
  ∧ context_entry (Outcome.rsp o) = Some (structpb.ListValue (structpb.StringValue <$> ids))
  ∧ (Outcome.oxr o ≫= status)
    = Some (Map {[ "discoveredUsers" := Int n; "userIDs" := Strings ids ]})
  ∧ RunFunctionResponse.Conditions (Outcome.rsp o)
    = [Condition.mk "UserDiscoverySuccess" STATUS_CONDITION_TRUE
         ("Discovered " +:+ pretty n +:+ " ElastiCache users")
         (Some TARGET_COMPOSITE_AND_CLAIM)]
  ∧ RunFunctionResponse.Results (Outcome.rsp o) = []
  ∧ (∀ oxr' s,
       Outcome.oxr o = Some oxr' →
       AsStruct w (resource.Composite.Object oxr') = inr s →
       desired_document (Outcome.rsp o) = Some s)
  ∧ (n = 0%Z → ids = []).
Proof.
  intros HL Hids o n.
  destruct (RunFunction_listed _ _ _ _ HL) as (creds & _ & Heq).
  rewrite (omap_all_present _ _ Hids) in Heq. subst o. rewrite Heq. clear Heq.
  assert (Hn : len ids = n).
  { unfold n, len. f_equal.
    rewrite <- (length_fmap aws.User.UserId), Hids. by rewrite length_fmap. }
  rewrite <- Hn.
  repeat split.
  - unfold context_entry. simpl. by rewrite lookup_insert_eq.
  - unfold status. simpl. by rewrite lookup_insert_eq.
  - intros oxr' s [= <-] Hs. unfold desired_document. simpl in *. by rewrite Hs.
  - destruct ids; [done|]. unfold len. simpl. lia.
Qed.

Lemma discovery_outputs_witness :
  let req := fixture.request_with (Some "eu-west-1") (fixture.aws_data fixture.full_bundle) in
  let w3 := fixture.world fixture.NewStruct fixture.three_users in
  let w0 := fixture.world fixture.NewStruct [] in
  (Listed w3 req (fixture.observed (Some "eu-west-1"))
          (aws.DescribeUsersOutput.mk fixture.three_users None)
   ∧ context_entry (Outcome.rsp (RunFunction w3 req))
     = Some (structpb.ListValue
               [structpb.StringValue "u1"; structpb.StringValue "u2"; structpb.StringValue "u3"])
   ∧ (Outcome.oxr (RunFunction w3 req) ≫= status)
     = Some (Map {[ "discoveredUsers" := Int 3; "userIDs" := Strings ["u1"; "u2"; "u3"] ]})
   ∧ RunFunctionResponse.Conditions (Outcome.rsp (RunFunction w3 req))
     = [Condition.mk "UserDiscoverySuccess" STATUS_CONDITION_TRUE
          "Discovered 3 ElastiCache users" (Some TARGET_COMPOSITE_AND_CLAIM)])
  ∧ (Listed w0 req (fixture.observed (Some "eu-west-1")) (aws.DescribeUsersOutput.mk [] None)
     ∧ context_entry (Outcome.rsp (RunFunction w0 req)) = Some (structpb.ListValue [])
     ∧ (Outcome.oxr (RunFunction w0 req) ≫= status)
       = Some (Map {[ "discoveredUsers" := Int 0; "userIDs" := Strings [] ]})
     ∧ RunFunctionResponse.Conditions (Outcome.rsp (RunFunction w0 req))
       = [Condition.mk "UserDiscoverySuccess" STATUS_CONDITION_TRUE
            "Discovered 0 ElastiCache users" (Some TARGET_COMPOSITE_AND_CLAIM)]).
Proof.
  intros req w3 w0.
  assert (HL3 : Listed w3 req (fixture.observed (Some "eu-west-1"))
                  (aws.DescribeUsersOutput.mk fixture.three_users None)).
  { apply (Listed_intro w3 req _ _ (resource.Credentials.mk fixture.full_bundle)
             ("eu-west-1", fixture.provider "token")); vm_compute; reflexivity. }
  assert (HL0 : Listed w0 req (fixture.observed (Some "eu-west-1"))
                  (aws.DescribeUsersOutput.mk [] None)).
  { apply (Listed_intro w0 req _ _ (resource.Credentials.mk fixture.full_bundle)
             ("eu-west-1", fixture.provider "token")); vm_compute; reflexivity. }
  split.
  - destruct (discovery_outputs w3 req _ _ ["u1"; "u2"; "u3"] HL3 eq_refl)
      as (_ & Hc & Hs & Hk & _).
    exact (conj HL3 (conj Hc (conj Hs Hk))).
  - destruct (discovery_outputs w0 req _ _ [] HL0 eq_refl) as (_ & Hc & Hs & Hk & _).
    exact (conj HL0 (conj Hc (conj Hs Hk))).
Defined.

(** C5.  Whenever the function writes a status, its [discoveredUsers] is
    the length of its [userIDs]; a run that writes none leaves the
    composite as it was read. *)
Theorem status_count_matches w req :
  let o := RunFunction w req in
  status_untouched w req o
  ∨ ∃ oxr' m n ids,
      Outcome.oxr o = Some oxr'
      ∧ status oxr' = Some (Map m)
      ∧ m !! "discoveredUsers" = Some (Int n)
      ∧ m !! "userIDs" = Some (Strings ids)
      ∧ n = Z.of_nat (length ids).
Proof.
  intros o. subst o.
  destruct (RunFunction_paths w req) as [(oxr & msg & t & HA)|(oxr & out & HL)].
  - left. rewrite (RunFunction_aborted _ _ _ _ _ HA). by apply aborted_untouched.
  - right. destruct (RunFunction_listed _ _ _ _ HL) as (creds & _ & ->).
    eexists _, _, _, _. split; [done|]. unfold status. simpl.
    rewrite lookup_insert_eq. split; [done|].
    rewrite lookup_insert_eq, lookup_insert_ne, lookup_insert_eq by done.
    done.
Qed.

(** ** The region *)

(** The trace of a run that read the composite starts with the opening
    lines, and the configuration is loaded for the region of the composite
    whenever the credentials resolve. *)
Lemma RunFunction_trace w req oxr :
  request.GetObservedCompositeResource w req = inr oxr →
  ∃ t, Outcome.trace (RunFunction w req) = opening req oxr ++ t
       ∧ ∀ creds, request.GetCredentials req "aws" = inr creds →
                  CallLoadDefaultConfig (region_of oxr) (provider_of creds) ∈ t.
Proof.
  intros H1.
  destruct (RunFunction_paths w req) as [(oxr1 & msg & t & HA)|(oxr1 & out & HL)].
  - rewrite (RunFunction_aborted _ _ _ _ _ HA). simpl.
    inversion HA as [? H|? ? H H'|? ? ? H H'|? ? ? ? H H']; subst;
      rewrite H1 in H; simplify_eq.
    + exists []. rewrite app_nil_r. split; [done|]. intros creds Hc. congruence.
    + eexists. split; [done|]. intros creds' Hc.
      replace creds' with creds by congruence. set_solver.
    + eexists. split; [done|]. intros creds' Hc.
      replace creds' with creds by congruence. set_solver.
  - destruct (RunFunction_listed _ _ _ _ HL) as (creds & H2 & ->). simpl.
    destruct HL as [? ? H _ _ _]. rewrite H1 in H. simplify_eq.
    eexists. split; [done|]. intros creds' Hc.
    replace creds' with creds by congruence. set_solver.
Qed.

Lemma opening_default req oxr e :
  resource.GetString (resource.Composite.Object oxr) "spec.parameters.region" = inl e →
  region_of oxr = "us-east-1" ∧ opening req oxr = [first_line req; default_region_line].
Proof. intros H. unfold region_of, opening. by rewrite H. Qed.

(** C6.  When the region cannot be read from the composite, the run goes
    on with "us-east-1": the substitution is logged, the configuration is
    loaded for that region, and with credentials that resolve, a
    configuration that loads and a listing from the API the run has no
    fatal result and ends with the success condition. *)
Theorem missing_region_defaults w req oxr e :
  request.GetObservedCompositeResource w req = inr oxr →
  resource.GetString (resource.Composite.Object oxr) "spec.parameters.region" = inl e →
  let o := RunFunction w req in
  default_region_line ∈ Outcome.trace o
  ∧ (∀ creds,
       request.GetCredentials req "aws" = inr creds →
       CallLoadDefaultConfig "us-east-1" (provider_of creds) ∈ Outcome.trace o)
  ∧ (∀ creds cfg out,
       request.GetCredentials req "aws" = inr creds →
       LoadDefaultConfig w "us-east-1" (provider_of creds) = inr cfg →
       DescribeUsers w cfg = inr out →
       ¬ is_fatal (Outcome.rsp o)
       ∧ RunFunctionResponse.Conditions (Outcome.rsp o)
         = [success_condition (len (present_identifiers (aws.DescribeUsersOutput.Users out)))]).
Proof.
  intros H1 Hr o. destruct (opening_default req oxr e Hr) as [Hreg Hop].
  subst o. destruct (RunFunction_trace w req oxr H1) as (t & -> & Hcall).
  rewrite Hop. split; [set_solver|split].
  - intros creds H2. specialize (Hcall creds H2). rewrite Hreg in Hcall. set_solver.
  - intros creds cfg out H2 H3 H4.
    assert (HL : Listed w req oxr out).
    { apply (Listed_intro w req oxr out creds cfg); [done|done| |done]. by rewrite Hreg. }
    destruct (RunFunction_listed _ _ _ _ HL) as (creds' & _ & ->). simpl.
    split; [apply published_not_fatal|]. by rewrite omap_present.
Qed.

Lemma missing_region_defaults_witness :
  let w := fixture.world fixture.NewStruct fixture.three_users in
  let req := fixture.request_with None (fixture.aws_data fixture.full_bundle) in
  resource.GetString (resource.Composite.Object (fixture.observed None)) "spec.parameters.region"
  = inl "spec.parameters.region: no such field"
  ∧ CallLoadDefaultConfig "us-east-1" (fixture.provider "token") ∈ Outcome.trace (RunFunction w req)
  ∧ ¬ is_fatal (Outcome.rsp (RunFunction w req))
  ∧ RunFunctionResponse.Conditions (Outcome.rsp (RunFunction w req)) = [success_condition 3].
Proof.
  intros w req.
  assert (Hr : resource.GetString (resource.Composite.Object (fixture.observed None))
                 "spec.parameters.region" = inl "spec.parameters.region: no such field")
    by (vm_compute; reflexivity).
  split; [exact Hr|].
  destruct (missing_region_defaults w req (fixture.observed None) _ eq_refl Hr)
    as (_ & Hcall & Hrun).
  split.
  - exact (Hcall (resource.Credentials.mk fixture.full_bundle) eq_refl).
  - exact (Hrun (resource.Credentials.mk fixture.full_bundle)
             ("us-east-1", fixture.provider "token")
             (aws.DescribeUsersOutput.mk fixture.three_users None)
             eq_refl eq_refl eq_refl).
Defined.

(** ** The status *)

(** C7.  When the composite carrying the new status does not convert, so
    that [SetDesiredCompositeResource] returns an error, the run does not
    fail: the error is logged as the last line, the context entry is
    there, the success condition is emitted, there is no fatal result and
    the Go error is nil. *)
Theorem status_write_failure_tolerated w req oxr out e :
  Listed w req oxr out →
  let ids := present_identifiers (aws.DescribeUsersOutput.Users out) in
  AsStruct w (resource.Composite.Object (set_status oxr (status_of ids))) = inl e →
  let o := RunFunction w req in
  Outcome.err o = None
  ∧ ¬ is_fatal (Outcome.rsp o)
  ∧ context_entry (Outcome.rsp o) = Some (structpb.ListValue (structpb.StringValue <$> ids))
  ∧ RunFunctionResponse.Conditions (Outcome.rsp o) = [success_condition (len ids)]
  ∧ last (Outcome.trace o)
    = Some (Info "Failed to update XR status"
              [("error", Str ("cannot convert *composite.Unstructured to desired composite resource: " +:+ e))])
  ∧ desired_document (Outcome.rsp o) = None.
Proof.
  intros HL ids He o.
  destruct (RunFunction_listed _ _ _ _ HL) as (creds & _ & Heq).
  rewrite omap_present in Heq. fold ids in Heq. subst o. rewrite Heq. clear Heq.
  simpl in He. simpl.
  repeat split.
  - apply published_not_fatal.
  - unfold context_entry. simpl. by rewrite lookup_insert_eq.
  - unfold status_lines. rewrite He. rewrite ?last_app, ?last_cons, ?last_app. simpl. done.
  - unfold desired_document. simpl. by rewrite He.
Qed.

Lemma status_write_failure_tolerated_witness :
  let w := fixture.world fixture.NewStruct fixture.three_users in
  let req := fixture.request_with (Some "eu-west-1") (fixture.aws_data fixture.full_bundle) in
  AsStruct w (resource.Composite.Object
                (set_status (fixture.observed (Some "eu-west-1")) (status_of ["u1"; "u2"; "u3"])))
  = inl "invalid type: []string"
  ∧ ¬ is_fatal (Outcome.rsp (RunFunction w req))
  ∧ RunFunctionResponse.Conditions (Outcome.rsp (RunFunction w req)) = [success_condition 3].
Proof.
  intros w req.
  assert (HL : Listed w req (fixture.observed (Some "eu-west-1"))
                 (aws.DescribeUsersOutput.mk fixture.three_users None)).
  { apply (Listed_intro w req _ _ (resource.Credentials.mk fixture.full_bundle)
             ("eu-west-1", fixture.provider "token")); vm_compute; reflexivity. }
  assert (He : AsStruct w (resource.Composite.Object
                 (set_status (fixture.observed (Some "eu-west-1")) (status_of ["u1"; "u2"; "u3"])))
               = inl "invalid type: []string") by (vm_compute; reflexivity).
  split; [exact He|].
  destruct (status_write_failure_tolerated w req _ _ _ HL He) as (_ & Hf & _ & Hc & _).
  exact (conj Hf Hc).
Defined.

Lemma GetString_set_status (object : gmap string any) (v : any) :
  resource.GetString (<["status" := v]> object) "spec.parameters.region"
  = resource.GetString object "spec.parameters.region".
Proof.
  unfold resource.GetString, resource.GetValue.
  change (resource.Parse "spec.parameters.region") with ["spec"; "parameters"; "region"].
  cbn [resource.GetValue_go]. by rewrite lookup_insert_ne.
Qed.

(** C8.  Of the composite it read, the function changes at most the entry
    [status]: every other entry of the document is as it was read, so are
    the connection details, and [spec.parameters.region] reads as before. *)
Theorem only_status_written w req oxr :
  request.GetObservedCompositeResource w req = inr oxr →
  ∃ oxr',
    Outcome.oxr (RunFunction w req) = Some oxr'
    ∧ (∀ k, k ≠ "status" →
            resource.Composite.Object oxr' !! k = resource.Composite.Object oxr !! k)
    ∧ resource.Composite.ConnectionDetails oxr' = resource.Composite.ConnectionDetails oxr
    ∧ resource.GetString (resource.Composite.Object oxr') "spec.parameters.region"
      = resource.GetString (resource.Composite.Object oxr) "spec.parameters.region".
Proof.
  intros H1.
  destruct (RunFunction_paths w req) as [(oxr1 & msg & t & HA)|(oxr1 & out & HL)].
  - rewrite (RunFunction_aborted _ _ _ _ _ HA).
    pose proof (aborted_untouched _ _ _ _ _ HA) as Hu.
    unfold status_untouched in Hu. rewrite H1 in Hu.
    exists oxr. by rewrite Hu.
  - destruct (RunFunction_listed _ _ _ _ HL) as (creds & _ & ->).
    destruct HL as [? ? H _ _ _]. rewrite H1 in H. injection H as <-.
    eexists. split; [done|]. simpl. repeat split.
    + intros k Hk. by rewrite lookup_insert_ne.
    + apply GetString_set_status.
Qed.

Lemma only_status_written_witness :
  let w := fixture.world fixture.NewStruct fixture.three_users in
  let req := fixture.request_with (Some "eu-west-1") (fixture.aws_data fixture.full_bundle) in
  request.GetObservedCompositeResource w req = inr (fixture.observed (Some "eu-west-1"))
  ∧ ∃ oxr',
      Outcome.oxr (RunFunction w req) = Some oxr'
      ∧ (∀ k, k ≠ "status" →
              resource.Composite.Object oxr' !! k
              = resource.Composite.Object (fixture.observed (Some "eu-west-1")) !! k)
      ∧ resource.Composite.ConnectionDetails oxr' = ∅
      ∧ resource.GetString (resource.Composite.Object oxr') "spec.parameters.region"
        = resource.GetString (resource.Composite.Object (fixture.observed (Some "eu-west-1")))
            "spec.parameters.region".
Proof.
  intros w req.
  assert (H : request.GetObservedCompositeResource w req
              = inr (fixture.observed (Some "eu-west-1"))) by (vm_compute; reflexivity).
  split; [exact H|].
  exact (only_status_written w req _ H).
Defined.

(** ** The observed composite *)

(** C9.  When the observed composite cannot be read, the run ends at
    once: its outcome is the response to the request with one fatal result
    carrying the error, nothing is published, no composite is in memory,
    the trace is the first log line alone, without any AWS call, and the
    outcome is the same whatever credentials the request carries. *)
Theorem unreadable_composite_aborts w req e :
  request.GetObservedCompositeResource w req = inl e →
  let o := RunFunction w req in
  o = Outcome.mk (response.Fatal (response.To req response.DefaultTTL) e) None None [first_line req]
  ∧ RunFunctionResponse.Results (Outcome.rsp o) = [fatal_result e]
  ∧ is_fatal (Outcome.rsp o)
  ∧ nothing_published req (Outcome.rsp o)
  ∧ (∀ ev, ev ∈ Outcome.trace o → ¬ is_call ev)
  ∧ (∀ credentials, RunFunction w (with_credentials req credentials) = o).
Proof.
  intros H1 o.
  pose proof (Aborted_unreadable w req e H1) as HA.
  subst o. rewrite (RunFunction_aborted _ _ _ _ _ HA).
  destruct (aborted_fatal req None e [first_line req]) as [Hf Hn].
  repeat split; try done.
  - intros ev Hev. simpl in Hev. apply list_elem_of_singleton in Hev.
    subst ev. unfold first_line, is_call. tauto.
  - intros credentials.
    apply (RunFunction_aborted w (with_credentials req credentials) None e [first_line req]).
    by apply (Aborted_unreadable w (with_credentials req credentials) e).
Qed.

Lemma unreadable_composite_aborts_witness :
  let req := fixture.request_with (Some "eu-west-1") (fixture.aws_data fixture.full_bundle) in
  request.GetObservedCompositeResource fixture.unreadable req
  = inl "cannot unmarshal observed composite resource"
  ∧ RunFunctionResponse.Results (Outcome.rsp (RunFunction fixture.unreadable req))
    = [fatal_result "cannot unmarshal observed composite resource"]
  ∧ nothing_published req (Outcome.rsp (RunFunction fixture.unreadable req)).
Proof.
  intros req.
  assert (H : request.GetObservedCompositeResource fixture.unreadable req
              = inl "cannot unmarshal observed composite resource") by reflexivity.
  split; [exact H|].
  destruct (unreadable_composite_aborts fixture.unreadable req _ H) as (_ & Hr & _ & Hn & _).
  exact (conj Hr Hn).
Defined.

(** ** The Go error *)

(** C10.  Every run returns a nil error next to a response that answers
    the request (its tag, the default time to live).  Each of the four
    calls whose failure ends the run is reported in that response, as
    exactly one fatal result carrying the error: the reading of the
    observed composite, the resolution of the credentials, the loading of
    the configuration and the API call.  A run without such a failure has
    no result and the success condition; a run with one has no
    condition. *)
Theorem RunFunction_nil_error w req :
  let o := RunFunction w req in
  Outcome.err o = None
  ∧ RunFunctionResponse.Meta (Outcome.rsp o)
    = Some (ResponseMeta.mk (GetTag (RunFunctionRequest.Meta req)) response.DefaultTTL)
  ∧ ((∃ msg, RunFunctionResponse.Results (Outcome.rsp o) = [fatal_result msg]
             ∧ RunFunctionResponse.Conditions (Outcome.rsp o) = [])
     ∨ (∃ n, RunFunctionResponse.Results (Outcome.rsp o) = []
             ∧ RunFunctionResponse.Conditions (Outcome.rsp o) = [success_condition n]))
  ∧ (∀ e,
       request.GetObservedCompositeResource w req = inl e →
       RunFunctionResponse.Results (Outcome.rsp o) = [fatal_result e])
  ∧ (∀ oxr e,
       request.GetObservedCompositeResource w req = inr oxr →
       request.GetCredentials req "aws" = inl e →
       RunFunctionResponse.Results (Outcome.rsp o)
       = [fatal_result ("failed to get AWS credentials: " +:+ e)])
  ∧ (∀ oxr creds e,
       request.GetObservedCompositeResource w req = inr oxr →
       request.GetCredentials req "aws" = inr creds →
       LoadDefaultConfig w (region_of oxr) (provider_of creds) = inl e →
       RunFunctionResponse.Results (Outcome.rsp o)
       = [fatal_result ("failed to load AWS config: " +:+ e)])
  ∧ (∀ oxr creds cfg e,
       request.GetObservedCompositeResource w req = inr oxr →
       request.GetCredentials req "aws" = inr creds →
       LoadDefaultConfig w (region_of oxr) (provider_of creds) = inr cfg →
       DescribeUsers w cfg = inl e →
       RunFunctionResponse.Results (Outcome.rsp o)
       = [fatal_result ("failed to describe ElastiCache users: " +:+ e)])
  ∧ (∀ oxr out,
       Listed w req oxr out →
       RunFunctionResponse.Results (Outcome.rsp o) = []
       ∧ RunFunctionResponse.Conditions (Outcome.rsp o)
         = [success_condition (len (present_identifiers (aws.DescribeUsersOutput.Users out)))]).
Proof.
  intros o. subst o.
  assert (Hab : ∀ oxr msg t, Aborted w req oxr msg t →
                  RunFunctionResponse.Results (Outcome.rsp (RunFunction w req))
                  = [fatal_result msg]).
  { intros oxr msg t HA. by rewrite (RunFunction_aborted _ _ _ _ _ HA). }
  split; [|split; [|split]].
  - destruct (RunFunction_paths w req) as [(oxr & msg & t & HA)|(oxr & out & HL)].
    + by rewrite (RunFunction_aborted _ _ _ _ _ HA).
    + by destruct (RunFunction_listed _ _ _ _ HL) as (creds & _ & ->).
  - destruct (RunFunction_paths w req) as [(oxr & msg & t & HA)|(oxr & out & HL)].
    + by rewrite (RunFunction_aborted _ _ _ _ _ HA).
    + by destruct (RunFunction_listed _ _ _ _ HL) as (creds & _ & ->).
  - destruct (RunFunction_paths w req) as [(oxr & msg & t & HA)|(oxr & out & HL)].
    + rewrite (RunFunction_aborted _ _ _ _ _ HA). left. by exists msg.
    + destruct (RunFunction_listed _ _ _ _ HL) as (creds & _ & ->). right. by eexists.
  - repeat split.
    + intros e H1. by apply (Hab _ _ _ (Aborted_unreadable w req e H1)).
    + intros oxr e H1 H2. by apply (Hab _ _ _ (Aborted_credentials w req oxr e H1 H2)).
    + intros oxr creds e H1 H2 H3.
      by apply (Hab _ _ _ (Aborted_config w req oxr creds e H1 H2 H3)).
    + intros oxr creds cfg e H1 H2 H3 H4.
      by apply (Hab _ _ _ (Aborted_api w req oxr creds cfg e H1 H2 H3 H4)).
    + by destruct (RunFunction_listed _ _ _ _ H) as (creds & _ & ->).
    + destruct (RunFunction_listed _ _ _ _ H) as (creds & _ & ->). simpl.
      by rewrite omap_present.
Qed.

Lemma RunFunction_nil_error_witness :
  let req := fixture.request_with (Some "eu-west-1") (fixture.aws_data fixture.full_bundle) in
  let none := fixture.request_with (Some "eu-west-1") ∅ in
  let w := fixture.world fixture.NewStruct fixture.three_users in
  (Outcome.err (RunFunction fixture.unreadable req) = None
   ∧ RunFunctionResponse.Results (Outcome.rsp (RunFunction fixture.unreadable req))
     = [fatal_result "cannot unmarshal observed composite resource"])
  ∧ (Outcome.err (RunFunction w none) = None
     ∧ RunFunctionResponse.Results (Outcome.rsp (RunFunction w none))
       = [fatal_result "failed to get AWS credentials: aws: credential not found"])
  ∧ (Outcome.err (RunFunction fixture.misconfigured req) = None
     ∧ RunFunctionResponse.Results (Outcome.rsp (RunFunction fixture.misconfigured req))
       = [fatal_result "failed to load AWS config: failed to load shared config file"])
  ∧ (Outcome.err (RunFunction fixture.throttled req) = None
     ∧ RunFunctionResponse.Results (Outcome.rsp (RunFunction fixture.throttled req))
       = [fatal_result "failed to describe ElastiCache users: ThrottlingException: Rate exceeded"]).
Proof.
  intros req none w.
  pose (oxr := fixture.observed (Some "eu-west-1")).
  pose (creds := resource.Credentials.mk fixture.full_bundle).
  split; [|split; [|split]].
  - destruct (RunFunction_nil_error fixture.unreadable req) as (He & _ & _ & H1 & _).
    exact (conj He (H1 "cannot unmarshal observed composite resource" eq_refl)).
  - destruct (RunFunction_nil_error w none) as (He & _ & _ & _ & H2 & _).
    exact (conj He (H2 oxr "aws: credential not found" eq_refl eq_refl)).
  - destruct (RunFunction_nil_error fixture.misconfigured req) as (He & _ & _ & _ & _ & H3 & _).
    exact (conj He (H3 oxr creds "failed to load shared config file" eq_refl eq_refl eq_refl)).
  - destruct (RunFunction_nil_error fixture.throttled req) as (He & _ & _ & _ & _ & _ & H4 & _).
    exact (conj He (H4 oxr creds () "ThrottlingException: Rate exceeded"
                      eq_refl eq_refl eq_refl eq_refl)).
Defined.

(** ** Further properties of [RunFunction] *)

(** X1.  When the AWS configuration does not load, the run ends with one
    fatal result carrying the wrapped error; nothing is published, the
    composite in memory is as it was read, and the API is not called. *)
Theorem config_failure_aborts w req oxr creds e :
  request.GetObservedCompositeResource w req = inr oxr →
  request.GetCredentials req "aws" = inr creds →
  LoadDefaultConfig w (region_of oxr) (provider_of creds) = inl e →
  let o := RunFunction w req in
  RunFunctionResponse.Results (Outcome.rsp o) = [fatal_result ("failed to load AWS config: " +:+ e)]
  ∧ nothing_published req (Outcome.rsp o)
  ∧ Outcome.oxr o = Some oxr
  ∧ Outcome.err o = None
  ∧ calls (Outcome.trace o) = [CallLoadDefaultConfig (region_of oxr) (provider_of creds)].
Proof.
  intros H1 H2 H3 o.
  pose proof (Aborted_config w req oxr creds e H1 H2 H3) as HA.
  subst o. rewrite (RunFunction_aborted _ _ _ _ _ HA). simpl.
  repeat split. by rewrite calls_app, calls_opening.
Qed.

Lemma config_failure_aborts_witness :
  let req := fixture.request_with (Some "eu-west-1") (fixture.aws_data fixture.full_bundle) in
  LoadDefaultConfig fixture.misconfigured "eu-west-1" (fixture.provider "token")
  = inl "failed to load shared config file"
  ∧ RunFunctionResponse.Results (Outcome.rsp (RunFunction fixture.misconfigured req))
    = [fatal_result "failed to load AWS config: failed to load shared config file"]
  ∧ calls (Outcome.trace (RunFunction fixture.misconfigured req))
    = [CallLoadDefaultConfig "eu-west-1" (fixture.provider "token")].
Proof.
  intros req. split; [reflexivity|].
  destruct (config_failure_aborts fixture.misconfigured req (fixture.observed (Some "eu-west-1"))
              (resource.Credentials.mk fixture.full_bundle) "failed to load shared config file")
    as (Hr & _ & _ & _ & Hc); try (vm_compute; reflexivity).
  exact (conj Hr Hc).
Defined.

(** X2.  The AWS calls of a run are, in order: none, when the composite
    cannot be read or the credentials do not resolve; the loading of the
    configuration alone, when it fails; the loading of the configuration
    followed by one call of the API otherwise.  The configuration is
    loaded for the region of the composite and the provider built from
    the bundle. *)
Theorem aws_calls_in_order w req :
  let t := Outcome.trace (RunFunction w req) in
  (calls t = []
   ∧ ((∃ e, request.GetObservedCompositeResource w req = inl e)
      ∨ (∃ e, request.GetCredentials req "aws" = inl e)))
  ∨ (∃ oxr creds,
       request.GetObservedCompositeResource w req = inr oxr
       ∧ request.GetCredentials req "aws" = inr creds
       ∧ ((calls t = [CallLoadDefaultConfig (region_of oxr) (provider_of creds)]
           ∧ ∃ e, LoadDefaultConfig w (region_of oxr) (provider_of creds) = inl e)
          ∨ (calls t = [CallLoadDefaultConfig (region_of oxr) (provider_of creds); CallDescribeUsers]
             ∧ ∃ cfg, LoadDefaultConfig w (region_of oxr) (provider_of creds) = inr cfg))).
Proof.
  intros t. subst t.
  destruct (RunFunction_paths w req) as [(oxr & msg & t & HA)|(oxr & out & HL)].
  - rewrite (RunFunction_aborted _ _ _ _ _ HA). cbn [Outcome.trace aborted].
    destruct HA as [e H1|oxr e H1 H2|oxr creds e H1 H2 H3|oxr creds cfg e H1 H2 H3 H4].
    + left. split; [done|]. left. by exists e.
    + left. split; [apply calls_opening|]. right. by exists e.
    + right. exists oxr, creds. repeat split; try done.
      left. split; [|by exists e]. by rewrite calls_app, calls_opening.
    + right. exists oxr, creds. repeat split; try done.
      right. split; [|by exists cfg]. by rewrite calls_app, calls_opening.
  - destruct (RunFunction_listed _ _ _ _ HL) as (creds & H2 & ->). cbn [Outcome.trace].
    destruct HL as [creds' cfg H1 H2' H3 H4].
    replace creds' with creds in * by congruence.
    right. exists oxr, creds. repeat split; try done.
    right. split; [|by exists cfg].
    rewrite !calls_app, calls_opening, calls_discovered_lines, calls_status_lines. done.
Qed.

(** X3.  When the composite carries a region, the configuration is loaded
    for that region, and the substitution of the default is not logged. *)
Theorem present_region_used w req oxr region :
  request.GetObservedCompositeResource w req = inr oxr →
  resource.GetString (resource.Composite.Object oxr) "spec.parameters.region" = inr region →
  let o := RunFunction w req in
  (default_region_line ∉ Outcome.trace o)
  ∧ ∀ creds,
      request.GetCredentials req "aws" = inr creds →
      head (calls (Outcome.trace o)) = Some (CallLoadDefaultConfig region (provider_of creds)).
Proof.
  intros H1 Hr o.
  assert (Hreg : region_of oxr = region) by (unfold region_of; by rewrite Hr).
  assert (Hop : opening req oxr = [first_line req]) by (unfold opening; by rewrite Hr).
  assert (Hd : ∀ users, default_region_line ∉ discovered_lines users).
  { intros users Hin. unfold discovered_lines in Hin.
    apply list_elem_of_omap in Hin as (u & _ & Hu).
    destruct (aws.User.UserId u); by simplify_eq/=. }
  subst o. split.
  - destruct (RunFunction_paths w req) as [(oxr1 & msg & t & HA)|(oxr1 & out & HL)].
    + rewrite (RunFunction_aborted _ _ _ _ _ HA). cbn [Outcome.trace aborted].
      destruct HA as [e H|oxr1 e H _|oxr1 creds e H _ _|oxr1 creds cfg e H _ _ _];
        rewrite H1 in H; [done|injection H as <-..]; rewrite ?Hop;
        unfold default_region_line, first_line;
        rewrite ?elem_of_app, ?elem_of_cons, ?elem_of_nil; intuition discriminate.
    + destruct (RunFunction_listed _ _ _ _ HL) as (creds & _ & ->). cbn [Outcome.trace].
      destruct HL as [? ? H _ _ _]. rewrite H1 in H. injection H as <-.
      rewrite Hop. rewrite !elem_of_app. intros [Hin|[Hin|[Hin|[Hin|Hin]]]].
      * unfold default_region_line, first_line in Hin.
        rewrite ?elem_of_cons, ?elem_of_nil in Hin. intuition discriminate.
      * rewrite ?elem_of_cons, ?elem_of_nil in Hin. intuition discriminate.
      * by apply Hd in Hin.
      * unfold default_region_line in Hin.
        rewrite ?elem_of_cons, ?elem_of_nil in Hin. intuition discriminate.
      * unfold status_lines, default_region_line in Hin.
        destruct (AsStruct w _);
          rewrite ?elem_of_cons, ?elem_of_nil in Hin; intuition discriminate.
  - intros creds H2.
    destruct (aws_calls_shape w req oxr creds H1 H2) as [-> | ->]; by rewrite Hreg.
Qed.


Lemma present_region_used_witness :
  let w := fixture.world fixture.NewStruct fixture.three_users in
  let req := fixture.request_with (Some "eu-west-1") (fixture.aws_data fixture.full_bundle) in
  resource.GetString (resource.Composite.Object (fixture.observed (Some "eu-west-1")))
    "spec.parameters.region" = inr "eu-west-1"
  ∧ (default_region_line ∉ Outcome.trace (RunFunction w req))
  ∧ head (calls (Outcome.trace (RunFunction w req)))
    = Some (CallLoadDefaultConfig "eu-west-1" (fixture.provider "token")).
Proof.
  intros w req.
  assert (Hr : resource.GetString (resource.Composite.Object (fixture.observed (Some "eu-west-1")))
                 "spec.parameters.region" = inr "eu-west-1") by (vm_compute; reflexivity).
  split; [exact Hr|].
  destruct (present_region_used w req (fixture.observed (Some "eu-west-1")) _ eq_refl Hr)
    as (Hn & Hc).
  exact (conj Hn (Hc (resource.Credentials.mk fixture.full_bundle) eq_refl)).
Defined.

(** X4.  Apart from [discoveredUserIDs], the context of the response holds
    what the context of the request holds, on every run. *)
Theorem context_other_keys_kept w req (k : string) :
  k ≠ "discoveredUserIDs" →
  context_fields (RunFunctionResponse.Context (Outcome.rsp (RunFunction w req))) !! k
  = context_fields (RunFunctionRequest.Context req) !! k.
Proof.
  intros Hk.
  destruct (RunFunction_paths w req) as [(oxr & msg & t & HA)|(oxr & out & HL)].
  - by rewrite (RunFunction_aborted _ _ _ _ _ HA).
  - destruct (RunFunction_listed _ _ _ _ HL) as (creds & _ & ->).
    unfold context_fields. simpl. by rewrite lookup_insert_ne.
Qed.

Lemma context_other_keys_kept_witness :
  let w := fixture.world fixture.NewStruct fixture.three_users in
  let req := fixture.request_with (Some "eu-west-1") (fixture.aws_data fixture.full_bundle) in
  "apiextensions.crossplane.io/environment" ≠ "discoveredUserIDs"
  ∧ context_fields (RunFunctionResponse.Context (Outcome.rsp (RunFunction w req)))
      !! "apiextensions.crossplane.io/environment"
    = Some structpb.NullValue.
Proof.
  intros w req.
  assert (Hk : "apiextensions.crossplane.io/environment" ≠ "discoveredUserIDs") by discriminate.
  split; [exact Hk|].
  exact (context_other_keys_kept w req _ Hk).
Defined.

(** X5.  The desired composed resources of the request are those of the
    response, on every run. *)
Theorem desired_resources_kept w req :
  desired_resources (RunFunctionResponse.Desired (Outcome.rsp (RunFunction w req)))
  = desired_resources (RunFunctionRequest.Desired req).
Proof.
  destruct (RunFunction_paths w req) as [(oxr & msg & t & HA)|(oxr & out & HL)].
  - by rewrite (RunFunction_aborted _ _ _ _ _ HA).
  - by destruct (RunFunction_listed _ _ _ _ HL) as (creds & _ & ->).
Qed.

(** X7.  A marker in the listing is not followed: whatever marker the API
    returns with its listings, the outcome of the run is the same. *)
Theorem marker_ignored w req marker :
  RunFunction (with_marker marker w) req = RunFunction w req.
Proof.
  unfold RunFunction, request.GetObservedCompositeResource, response.SetDesiredCompositeResource.
  cbn [with_marker AsObject AsStruct LoadDefaultConfig DescribeUsers aws_Config].
  destruct (AsObject w _); [done|].
  destruct (resource.GetString _ _);
    (destruct (request.GetCredentials req "aws"); [done|]);
    (destruct (LoadDefaultConfig w _ _); [done|]);
    (destruct (DescribeUsers w _); [done|]); reflexivity.
Qed.

Lemma length_omap_UserId (users : list aws.User.t) :
  (length (omap aws.User.UserId users) ≤ length users)%nat
  ∧ (length (omap aws.User.UserId users) = length users
     ↔ Forall (λ u, is_Some (aws.User.UserId u)) users).
Proof.
  induction users as [|u users [IH1 IH2]]; [by split|].
  csimpl. destruct (aws.User.UserId u) as [id|] eqn:E; csimpl.
  - split; [lia|]. rewrite Forall_cons, <- IH2, E. split.
    + intros [= Hl]. split; [by eexists|done].
    + intros [_ ->]. done.
  - split; [lia|]. rewrite Forall_cons, E. split.
    + intros Hl. lia.
    + intros [[? ?] _]. done.
Qed.

(** X8.  The count of a completed run is at most the number of entries of
    the listing, and equal to it exactly when every entry carries an
    identifier. *)
Theorem discovered_count_bounds w req oxr out :
  Listed w req oxr out →
  ∃ n ids,
    (Outcome.oxr (RunFunction w req) ≫= status)
    = Some (Map {[ "discoveredUsers" := Int n; "userIDs" := Strings ids ]})
    ∧ (0 ≤ n ≤ len (aws.DescribeUsersOutput.Users out))%Z
    ∧ (n = len (aws.DescribeUsersOutput.Users out)
       ↔ Forall (λ u, is_Some (aws.User.UserId u)) (aws.DescribeUsersOutput.Users out)).
Proof.
  intros HL. destruct (RunFunction_listed _ _ _ _ HL) as (creds & _ & ->).
  destruct (length_omap_UserId (aws.DescribeUsersOutput.Users out)) as [Hle Hiff].
  eexists _, _. split; [|split].
  - unfold status. simpl. rewrite lookup_insert_eq. reflexivity.
  - unfold len. lia.
  - rewrite <- Hiff. unfold len. lia.
Qed.

Lemma discovered_count_bounds_witness :
  let w := fixture.world fixture.NewStruct fixture.mixed_users in
  let req := fixture.request_with (Some "eu-west-1") (fixture.aws_data fixture.full_bundle) in
  Listed w req (fixture.observed (Some "eu-west-1"))
         (aws.DescribeUsersOutput.mk fixture.mixed_users None)
  ∧ ∃ n ids,
      (Outcome.oxr (RunFunction w req) ≫= status)
      = Some (Map {[ "discoveredUsers" := Int n; "userIDs" := Strings ids ]})
      ∧ (0 ≤ n ≤ 4)%Z.
Proof.
  intros w req.
  assert (HL : Listed w req (fixture.observed (Some "eu-west-1"))
                 (aws.DescribeUsersOutput.mk fixture.mixed_users None)).
  { apply (Listed_intro w req _ _ (resource.Credentials.mk fixture.full_bundle)
             ("eu-west-1", fixture.provider "token")); vm_compute; reflexivity. }
  split; [exact HL|].
  destruct (discovered_count_bounds w req _ _ HL) as (n & ids & Hs & Hb & _).
  exact (ex_intro _ n (ex_intro _ ids (conj Hs Hb))).
Defined.

(** X9.  Only the bundle named [aws] is looked at: requests that differ in
    their other bundles have the same outcome. *)
Theorem other_bundles_ignored w req (credentials : gmap string Credentials) :
  credentials !! "aws" = RunFunctionRequest.Credentials req !! "aws" →
  RunFunction w (with_credentials req credentials) = RunFunction w req.
Proof.
  intros H.
  assert (Hc : request.GetCredentials (with_credentials req credentials) "aws"
               = request.GetCredentials req "aws").
  { unfold request.GetCredentials. simpl. by rewrite H. }
  unfold RunFunction. rewrite Hc. reflexivity.
Qed.

Lemma other_bundles_ignored_witness :
  let w := fixture.world fixture.NewStruct fixture.three_users in
  let req := fixture.request_with (Some "eu-west-1") (fixture.aws_data fixture.full_bundle) in
  let credentials := <["gcp" := Credentials_unset]> (fixture.aws_data fixture.full_bundle) in
  credentials !! "aws" = RunFunctionRequest.Credentials req !! "aws"
  ∧ RunFunction w (with_credentials req credentials) = RunFunction w req.
Proof.
  intros w req credentials.
  assert (H : credentials !! "aws" = RunFunctionRequest.Credentials req !! "aws")
    by (vm_compute; reflexivity).
  split; [exact H|].
  exact (other_bundles_ignored w req credentials H).
Defined.

(** X10.  Of a bundle only the entries [aws_access_key_id],
    [aws_secret_access_key] and [aws_session_token] are read, each as its
    bytes or as no bytes when it is missing: two bundles that agree there
    give the same outcome. *)
Theorem bundle_read_by_three_keys w req (data data' : gmap string bytes)
    (others : gmap string Credentials) :
  index data' "aws_access_key_id" = index data "aws_access_key_id" →
  index data' "aws_secret_access_key" = index data "aws_secret_access_key" →
  index data' "aws_session_token" = index data "aws_session_token" →
  RunFunction w (with_credentials req (<["aws" := Credentials_CredentialData data']> others))
  = RunFunction w (with_credentials req (<["aws" := Credentials_CredentialData data]> others)).
Proof.
  intros Hk Hs Ht.
  assert (Hg : ∀ d, request.GetCredentials
                      (with_credentials req (<["aws" := Credentials_CredentialData d]> others)) "aws"
                    = inr (resource.Credentials.mk d)).
  { intros d. unfold request.GetCredentials. simpl. by rewrite lookup_insert_eq. }
  assert (Hp : provider_of (resource.Credentials.mk data')
               = provider_of (resource.Credentials.mk data)).
  { unfold provider_of. simpl. by rewrite Hk, Hs, Ht. }
  assert (Ho : ∀ c, request.GetObservedCompositeResource w (with_credentials req c)
                    = request.GetObservedCompositeResource w req) by reflexivity.
  unfold RunFunction. rewrite !Hg, !Ho, Hp. reflexivity.
Qed.

Lemma bundle_read_by_three_keys_witness :
  let w := fixture.world fixture.NewStruct fixture.three_users in
  let req := fixture.request_with (Some "eu-west-1") ∅ in
  let data' := <["aws_session_token" := []]>
                 (<["profile" := fixture.b "default"]> fixture.bundle_without_token) in
  index data' "aws_session_token" = index fixture.bundle_without_token "aws_session_token"
  ∧ RunFunction w (with_credentials req (<["aws" := Credentials_CredentialData data']> ∅))
    = RunFunction w (with_credentials req
                       (<["aws" := Credentials_CredentialData fixture.bundle_without_token]> ∅)).
Proof.
  intros w req data'.
  assert (Ht : index data' "aws_session_token"
               = index fixture.bundle_without_token "aws_session_token") by reflexivity.
  split; [exact Ht|].
  exact (bundle_read_by_three_keys w req fixture.bundle_without_token data' ∅
           eq_refl eq_refl Ht).
Defined.

(** X11.  A run carries a fatal result exactly when it got no listing, and
    then it has no condition; a run that got a listing has the success
    condition with the count of the identifiers present. *)
Theorem fatal_iff_no_listing w req :
  let o := RunFunction w req in
  (is_fatal (Outcome.rsp o) ↔ ¬ ∃ oxr out, Listed w req oxr out)
  ∧ (is_fatal (Outcome.rsp o) → RunFunctionResponse.Conditions (Outcome.rsp o) = [])
  ∧ (∀ oxr out,
       Listed w req oxr out →
       RunFunctionResponse.Conditions (Outcome.rsp o)
       = [success_condition (len (present_identifiers (aws.DescribeUsersOutput.Users out)))]).
Proof.
  intros o. subst o.
  assert (HLn : ∀ oxr out, Listed w req oxr out →
                  ¬ is_fatal (Outcome.rsp (RunFunction w req))
                  ∧ RunFunctionResponse.Conditions (Outcome.rsp (RunFunction w req))
                    = [success_condition
                         (len (present_identifiers (aws.DescribeUsersOutput.Users out)))]).
  { intros oxr out HL. destruct (RunFunction_listed _ _ _ _ HL) as (creds & _ & ->).
    simpl. split; [apply published_not_fatal|]. by rewrite omap_present. }
  split; [split|split].
  - intros Hf (oxr & out & HL). by apply (HLn _ _ HL).
  - intros Hn.
    destruct (RunFunction_paths w req) as [(oxr & msg & t & HA)|(oxr & out & HL)].
    + rewrite (RunFunction_aborted _ _ _ _ _ HA). apply aborted_fatal.
    + destruct Hn. eauto.
  - intros Hf.
    destruct (RunFunction_paths w req) as [(oxr & msg & t & HA)|(oxr & out & HL)].
    + by rewrite (RunFunction_aborted _ _ _ _ _ HA).
    + by destruct (HLn _ _ HL).
  - intros oxr out HL. by destruct (HLn _ _ HL).
Qed.

(** X12.  The slice built for the context has one place per identifier,
    the [i]-th holding the string value of the [i]-th identifier: no place
    keeps its initial value. *)
Theorem closure_fills_every_place (userIDs : list string) :
  length (context_values userIDs) = length userIDs
  ∧ (∀ i, context_values userIDs !! i = structpb.StringValue <$> (userIDs !! i))
  ∧ structpb.NullValue ∉ context_values userIDs.
Proof.
  rewrite context_values_fmap. split; [|split].
  - apply length_fmap.
  - intros i. apply list_lookup_fmap.
  - intros Hin. apply list_elem_of_fmap in Hin as (id & Hid & _). discriminate.
Qed.
